(** * Recipe recommender: the browsing client and the ranking contract

    The repository ships a React client that talks to a recipe API: a
    search box, three variants of the recipe grid and two card
    components.  This development embeds the decision logic of those
    components as Rocq functions and proves the properties stated about
    them; the ranking engine behind the API is not part of the sources
    and is embedded from its written contract.

    - [JS]: the ECMAScript string and number operations the components
      call ([trim], [split] on [/[,\s]+/], [toLowerCase], [includes],
      [encodeURIComponent], [Math.round], truthiness).
    - [Card]: [RecipeCardWithSimilarity] (badge text, colour, guard).
    - [Backend]: [RecipeGridWithBackend], the grid of the Index page.
    - [Query]: [RecipeGrid], the react-query variant.  The third grid
      filters a constant array of sample recipes and issues no request.
    - [Engine]: the Ranker and the QueryService of the contract.
    - [Modal]: the modal's cells, its two handlers and [RecipeModal].
    - [Local]: the third grid with its sample recipes.

    Strings are Rocq [string]s, sequences of 8-bit characters; the white
    space and the letter case of a character are those of its ASCII
    code.  A React effect is a pair: the request it issues, and the
    state transformer it applies to the outcome of that request. *)

From Stdlib Require Import String Ascii List ZArith QArith Qround Reals.
From Stdlib Require Import Lia Psatz Sorting.Sorted.
From stdpp Require Import base list gmap fin_maps strings.
Import ListNotations.

(** String concatenation computes on literals. *)
Arguments String.append !_ _ : simpl nomatch.

(** ** ECMAScript string operations *)

Module JS.

Local Open Scope string_scope.

(** [\s] and the characters removed by [String.prototype.trim]:
    TAB, LF, VT, FF, CR and SPACE. *)
Definition isWhiteSpace (c : ascii) : bool :=
  let n := nat_of_ascii c in
  ((n =? 9) || (n =? 10) || (n =? 11) || (n =? 12) || (n =? 13) || (n =? 32))%nat.

(** The character class [[,\s]] of the ingredient separator. *)
Definition isSeparator (c : ascii) : bool :=
  (nat_of_ascii c =? 44)%nat || isWhiteSpace c.

Fixpoint trimStart (s : string) : string :=
  match s with
  | "" => ""
  | String c s' => if isWhiteSpace c then trimStart s' else s
  end.

Fixpoint trimEnd (s : string) : string :=
  match s with
  | "" => ""
  | String c s' =>
      match trimEnd s' with
      | "" => if isWhiteSpace c then "" else String c ""
      | t => String c t
      end
  end.

(** [s.trim()] *)
Definition trim (s : string) : string := trimEnd (trimStart s).

(** Truthiness of a string: only the empty string is falsy. *)
Definition truthy (s : string) : bool :=
  match s with "" => false | _ => true end.

(** [s.split(/[,\s]+/)]: the pieces between the maximal runs of
    separator characters.  [cur] is the piece being read, reversed;
    [inSep] tells that the previous character belonged to a run. *)
Fixpoint splitFrom (cur : list ascii) (inSep : bool) (s : string)
  : list string :=
  match s with
  | "" => [string_of_list_ascii (rev cur)]
  | String c s' =>
      if isSeparator c then
        if inSep then splitFrom cur true s'
        else string_of_list_ascii (rev cur) :: splitFrom [] true s'
      else splitFrom (c :: cur) false s'
  end.

Definition split (s : string) : list string := splitFrom [] false s.

Definition toLowerChar (c : ascii) : ascii :=
  let n := nat_of_ascii c in
  if ((65 <=? n) && (n <=? 90))%nat then ascii_of_nat (n + 32) else c.

(** [s.toLowerCase()] *)
Fixpoint toLowerCase (s : string) : string :=
  match s with
  | "" => ""
  | String c s' => String (toLowerChar c) (toLowerCase s')
  end.

(** [s.includes(t)]: [t] starts at some position of [s]. *)
Fixpoint includes (s t : string) : bool :=
  String.prefix t s ||
  match s with
  | "" => false
  | String _ s' => includes s' t
  end.

(** [t] occurs in [s] as a contiguous block. *)
Definition Substring (t s : string) : Prop :=
  exists pre post, s = pre ++ t ++ post.

(** No character of [s] is a separator. *)
Definition NoSeparator (s : string) : Prop :=
  forall c, In c (list_ascii_of_string s) -> isSeparator c = false.

(** The characters [encodeURIComponent] leaves alone:
    [A-Z a-z 0-9 - _ . ! ~ * ' ( )]. *)
Definition isUnreserved (c : ascii) : bool :=
  let n := nat_of_ascii c in
  (((65 <=? n) && (n <=? 90)) || ((97 <=? n) && (n <=? 122)) ||
   ((48 <=? n) && (n <=? 57)) ||
   (n =? 45) || (n =? 95) || (n =? 46) || (n =? 33) || (n =? 126) ||
   (n =? 42) || (n =? 39) || (n =? 40) || (n =? 41))%nat.

Definition hexDigit (n : nat) : ascii :=
  if (n <? 10)%nat then ascii_of_nat (48 + n) else ascii_of_nat (55 + n).

(** Every other byte becomes [%XX]. *)
Definition encodeChar (c : ascii) : string :=
  if isUnreserved c then String c ""
  else
    let n := nat_of_ascii c in
    String "%" (String (hexDigit (n / 16)) (String (hexDigit (n mod 16)) "")).

(** [encodeURIComponent(s)] *)
Fixpoint encodeURIComponent (s : string) : string :=
  match s with
  | "" => ""
  | String c s' => encodeChar c ++ encodeURIComponent s'
  end.

(** Numbers are the rationals that finite doubles denote.  A number is
    falsy exactly when it is zero. *)
Definition truthyNum (x : Q) : bool := negb (Qeq_bool x 0).

(** [Math.round(x)]: the nearest integer, a tie going up. *)
Definition Math_round (x : Q) : Z := Qfloor (x + (1 # 2))%Q.

(** [l.join(sep)]: the elements with [sep] between them. *)
Fixpoint join (sep : string) (l : list string) : string :=
  match l with
  | [] => ""
  | [x] => x
  | x :: rest => x ++ sep ++ join sep rest
  end.

(** The value of a hexadecimal digit. *)
Definition hexValue (c : ascii) : option nat :=
  let n := nat_of_ascii c in
  if ((48 <=? n) && (n <=? 57))%nat then Some (n - 48)%nat
  else if ((65 <=? n) && (n <=? 70))%nat then Some (n - 55)%nat
  else None.

(** The inverse of the escaping of [encodeURIComponent], as a server
    applies it to a path segment: [%XX] becomes the byte [XX]; a [%]
    that is not followed by two digits is kept. *)
Fixpoint unescape (s : string) : string :=
  match s with
  | "" => ""
  | String c rest =>
      if (nat_of_ascii c =? 37)%nat then
        match rest with
        | String a (String b rest') =>
            match hexValue a, hexValue b with
            | Some x, Some y => String (ascii_of_nat (16 * x + y)) (unescape rest')
            | _, _ => String c (unescape rest)
            end
        | _ => String c (unescape rest)
        end
      else String c (unescape rest)
  end.

End JS.


(** ** HTTP requests *)

(** The body of a search request, [{ ingredients, top_n }]. *)
Record SearchBody := mkSearchBody {
  body_ingredients : list string;
  body_top_n : Z
}.

(** A [fetch] call: the method, and the target relative to the origin the
    page was served from ([API_BASE_URL] is [window.location.origin]). *)
Inductive Request :=
| GET (url : string)
| POST (url : string) (body : SearchBody).

(** What awaiting [fetch] and then [response.json()] can give: the promise
    rejects, or a response arrives with its [ok] flag and, when the body
    parses, its JSON value. *)
Inductive FetchOutcome (A : Type) :=
| Rejects
| Resolves (ok : bool) (json : option A).
Arguments Rejects {A}.
Arguments Resolves {A} ok json.

(** ** RecipeCardWithSimilarity *)

Module Card.

Local Open Scope string_scope.

Record Recipe := mkRecipe {
  id : string;
  title : string;
  description : string;
  image : string;
  cookTime : Q;
  servings : Q;
  rating : Q;
  category : string;
  difficulty : string;
  ingredients : list string;
  instructions : list string;
  similarityScore : option Q
}.

(** What React puts in the place of the [a && b && <div/>] child:
    nothing for [false] and [undefined], the digits of a number, or the
    badge with its class names and its percentage. *)
Inductive Slot :=
| Nothing
| NumberText (x : Q)
| Badge (className : string) (percent : Z).

Section Arithmetic.

(** [fl] rounds an exact result to the nearest double: the product
    [a * b] of the source is [fl] of the exact product. *)
Variable fl : Q -> Q.

Definition formatSimilarityScore (score : Q) : Z :=
  JS.Math_round (fl (score * 100)%Q).

Definition getSimilarityColor (score : Q) : string :=
  let percentage := fl (score * 100)%Q in
  if Qle_bool 80 percentage then "text-green-400 bg-green-500/20"
  else if Qle_bool 60 percentage then "text-yellow-400 bg-yellow-500/20"
  else if Qle_bool 40 percentage then "text-orange-400 bg-orange-500/20"
  else "text-red-400 bg-red-500/20".

(** [showSimilarityScore && recipe.similarityScore && (<div>...</div>)] *)
Definition badgeSlot (recipe : Recipe) (showSimilarityScore : bool) : Slot :=
  if showSimilarityScore then
    match similarityScore recipe with
    | None => Nothing
    | Some s =>
        if JS.truthyNum s
        then Badge (getSimilarityColor s) (formatSimilarityScore s)
        else NumberText s
    end
  else Nothing.

(** The class names of the difficulty pill. *)
Definition difficultyClass (d : string) : string :=
  if String.eqb d "Easy" then "bg-green-500/20 text-green-400"
  else if String.eqb d "Medium" then "bg-yellow-500/20 text-yellow-400"
  else "bg-red-500/20 text-red-400".

(** Everything the card shows. *)
Record View := mkView {
  v_badge : Slot;
  v_image : string;
  v_alt : string;
  v_category : string;
  v_rating : Q;
  v_title : string;
  v_description : string;
  v_counts : option (nat * nat);
  v_cookTime : Q;
  v_servings : Q;
  v_difficultyClass : string;
  v_difficulty : string
}.

Definition render (recipe : Recipe) (showSimilarityScore : bool) : View :=
  {| v_badge := badgeSlot recipe showSimilarityScore;
     v_image := image recipe;
     v_alt := title recipe;
     v_category := category recipe;
     v_rating := rating recipe;
     v_title := title recipe;
     v_description := description recipe;
     v_counts :=
       if (0 <? length (ingredients recipe))%nat
       then Some (length (ingredients recipe), length (instructions recipe))
       else None;
     v_cookTime := cookTime recipe;
     v_servings := servings recipe;
     v_difficultyClass := difficultyClass (difficulty recipe);
     v_difficulty := difficulty recipe |}.

End Arithmetic.

(** The slot holds the badge. *)
Definition isBadge (slot : Slot) : Prop :=
  exists className percent, slot = Badge className percent.

(** The colour bands from worst to best: red 0, orange 1, yellow 2,
    green 3. *)
Definition band (className : string) : nat :=
  if String.eqb className "text-green-400 bg-green-500/20" then 3
  else if String.eqb className "text-yellow-400 bg-yellow-500/20" then 2
  else if String.eqb className "text-orange-400 bg-orange-500/20" then 1
  else 0.

End Card.

(** ** RecipeGridWithBackend *)

Module Backend.

Local Open Scope string_scope.

Record Nutrition := mkNutrition {
  calories : option Q;
  protein : option Q;
  fat : option Q;
  carbs : option Q
}.

Record BackendRecipe := mkBackendRecipe {
  id : string;
  title : string;
  description : string;
  image : string;
  cookTime : Q;
  servings : Q;
  rating : Q;
  category : string;
  difficulty : string;
  ingredients : list string;
  instructions : list string;
  nutrition : Nutrition;
  similarityScore : option Q
}.

(** The component's [useState] cells that the effects write (the modal's
    two cells play no part in loading or filtering). *)
Record State := mkState {
  recipes : list BackendRecipe;
  categories : list string;
  selectedCategory : string;
  loading : bool;
  error : option string;
  isSearching : bool
}.

Definition initial : State :=
  {| recipes := []; categories := ["All"]; selectedCategory := "All";
     loading := false; error := None; isSearching := false |}.

Definition setRecipes (v : list BackendRecipe) (st : State) : State :=
  {| recipes := v; categories := categories st;
     selectedCategory := selectedCategory st; loading := loading st;
     error := error st; isSearching := isSearching st |}.

Definition setCategories (v : list string) (st : State) : State :=
  {| recipes := recipes st; categories := v;
     selectedCategory := selectedCategory st; loading := loading st;
     error := error st; isSearching := isSearching st |}.

Definition setSelectedCategory (v : string) (st : State) : State :=
  {| recipes := recipes st; categories := categories st;
     selectedCategory := v; loading := loading st;
     error := error st; isSearching := isSearching st |}.

Definition setLoading (v : bool) (st : State) : State :=
  {| recipes := recipes st; categories := categories st;
     selectedCategory := selectedCategory st; loading := v;
     error := error st; isSearching := isSearching st |}.

Definition setError (v : option string) (st : State) : State :=
  {| recipes := recipes st; categories := categories st;
     selectedCategory := selectedCategory st; loading := loading st;
     error := v; isSearching := isSearching st |}.

Definition setIsSearching (v : bool) (st : State) : State :=
  {| recipes := recipes st; categories := categories st;
     selectedCategory := selectedCategory st; loading := loading st;
     error := error st; isSearching := v |}.

(** *** Effects: the request each one issues, and what it does with the
    outcome *)

Definition loadCategories_request : Request :=
  GET "/api/recipes/categories".

Definition loadCategories (o : FetchOutcome (list string)) (st : State)
  : State :=
  match o with
  | Resolves true (Some categoryData) =>
      setCategories ("All" :: categoryData) st
  | _ => st
  end.

Definition loadInitialRecipes_request : Request :=
  GET "/api/recipes/random?count=50".

Definition loadInitialRecipes (o : FetchOutcome (list BackendRecipe))
  (st : State) : State :=
  let st := setError None (setLoading true st) in
  let st :=
    match o with
    | Resolves true (Some recipeData) => setRecipes recipeData st
    | Resolves true None => setError (Some "Failed to load recipes") st
    | Resolves false _ => setError (Some "Failed to load recipes") st
    | Rejects => setError (Some "Failed to load recipes") st
    end in
  setLoading false st.

(** [searchQuery.split(/[,\s]+/).filter(ing => ing.trim().length > 0)] *)
Definition ingredientsOf (searchQuery : string) : list string :=
  List.filter (fun ing => (0 <? String.length (JS.trim ing))%nat)
    (JS.split searchQuery).

Definition searchRecipes_request (searchQuery : string) : Request :=
  if negb (JS.truthy (JS.trim searchQuery)) then
    GET "/api/recipes/random?count=50"
  else
    POST "/api/recipes/search"
      {| body_ingredients := ingredientsOf searchQuery; body_top_n := 12 |}.

Definition searchRecipes (searchQuery : string)
  (o : FetchOutcome (list BackendRecipe)) (st : State) : State :=
  if negb (JS.truthy (JS.trim searchQuery)) then
    let st := setIsSearching true st in
    let st :=
      match o with
      | Resolves true (Some recipeData) => setRecipes recipeData st
      | _ => st
      end in
    setIsSearching false st
  else
    let st := setError None (setIsSearching true st) in
    let st :=
      match o with
      | Resolves true (Some searchResults) =>
          let st := setRecipes searchResults st in
          if (length searchResults =? 0)%nat then
            setError (Some
              "No recipes found for your ingredients. Try different ingredients or check spelling.")
              st
          else st
      | Resolves true None => setError (Some "Search failed. Please try again.") st
      | Resolves false _ => setError (Some "Search failed. Please try again.") st
      | Rejects => setError (Some "Search failed. Please try again.") st
      end in
    setIsSearching false st.

Definition loadRecipes_request (selectedCategory : string) : Request :=
  if String.eqb selectedCategory "All" || negb (JS.truthy selectedCategory)
  then GET "/api/recipes/random?count=20"
  else GET ("/api/recipes/by-category/" ++
            JS.encodeURIComponent selectedCategory).

Definition loadRecipes (o : FetchOutcome (list BackendRecipe)) (st : State)
  : State :=
  let st := setError None (setLoading true st) in
  let st :=
    match o with
    | Resolves true (Some categoryRecipes) => setRecipes categoryRecipes st
    | Resolves true None => setError (Some "Failed to load recipes") st
    | Resolves false _ => setError (Some "Failed to load recipes") st
    | Rejects => setError (Some "Failed to load recipes") st
    end in
  setLoading false st.

(** Every request the component issues for a given search query and
    selected category: the two mount effects, the debounced search effect,
    and the category effect, which runs only without a search query. *)
Definition requests (searchQuery selectedCategory : string) : list Request :=
  [loadCategories_request; loadInitialRecipes_request;
   searchRecipes_request searchQuery] ++
  (if negb (JS.truthy (JS.trim searchQuery))
   then [loadRecipes_request selectedCategory] else []).

(** *** Rendering *)

Definition filteredRecipes (recipes : list BackendRecipe)
  (selectedCategory : string) : list BackendRecipe :=
  if String.eqb selectedCategory "All" then recipes
  else
    List.filter
      (fun recipe =>
         JS.includes (JS.toLowerCase (category recipe))
                     (JS.toLowerCase selectedCategory))
      recipes.

Definition convertToRecipeCardFormat (backendRecipe : BackendRecipe)
  : Card.Recipe :=
  {| Card.id := id backendRecipe;
     Card.title := title backendRecipe;
     Card.description := description backendRecipe;
     Card.image := image backendRecipe;
     Card.cookTime := cookTime backendRecipe;
     Card.servings := servings backendRecipe;
     Card.rating := rating backendRecipe;
     Card.category := category backendRecipe;
     Card.difficulty := difficulty backendRecipe;
     Card.ingredients := ingredients backendRecipe;
     Card.instructions := instructions backendRecipe;
     Card.similarityScore := similarityScore backendRecipe |}.

(** [!!searchQuery.trim() && !!recipe.similarityScore] *)
Definition showSimilarityScore (searchQuery : string)
  (recipe : BackendRecipe) : bool :=
  JS.truthy (JS.trim searchQuery) &&
  match similarityScore recipe with
  | Some s => JS.truthyNum s
  | None => false
  end.

(** The buttons of the category bar, one per entry of [categories]. *)
Definition categoryButtons (st : State) : list string := categories st.

(** One [<div key={recipe.id}>] of the grid with the card inside. *)
Definition gridItem (fl : Q -> Q) (searchQuery : string)
  (recipe : BackendRecipe) : string * Card.View :=
  (id recipe,
   Card.render fl (convertToRecipeCardFormat recipe)
     (showSimilarityScore searchQuery recipe)).

(** The cards of the grid in display order. *)
Definition grid (fl : Q -> Q) (searchQuery : string) (st : State)
  : list (string * Card.View) :=
  map (gridItem fl searchQuery)
      (filteredRecipes (recipes st) (selectedCategory st)).

(** The same recipe as the server would send it without a score. *)
Definition withoutScore (r : BackendRecipe) : BackendRecipe :=
  {| id := id r; title := title r; description := description r;
     image := image r; cookTime := cookTime r; servings := servings r;
     rating := rating r; category := category r;
     difficulty := difficulty r; ingredients := ingredients r;
     instructions := instructions r; nutrition := nutrition r;
     similarityScore := None |}.

(** *** The effects in two steps

    An effect writes some cells, awaits its [fetch], and writes again.
    Other effects and clicks can run in between. *)

(** [loadInitialRecipes] up to the [await]. *)
Definition loadInitialRecipes_start (st : State) : State :=
  setError None (setLoading true st).

(** [loadInitialRecipes] after the [await]. *)
Definition loadInitialRecipes_finish
  (o : FetchOutcome (list BackendRecipe)) (st : State) : State :=
  let st :=
    match o with
    | Resolves true (Some recipeData) => setRecipes recipeData st
    | Resolves true None => setError (Some "Failed to load recipes") st
    | Resolves false _ => setError (Some "Failed to load recipes") st
    | Rejects => setError (Some "Failed to load recipes") st
    end in
  setLoading false st.

(** [searchRecipes] up to the [await]. *)
Definition searchRecipes_start (searchQuery : string) (st : State) : State :=
  if negb (JS.truthy (JS.trim searchQuery)) then setIsSearching true st
  else setError None (setIsSearching true st).

(** [searchRecipes] after the [await]. *)
Definition searchRecipes_finish (searchQuery : string)
  (o : FetchOutcome (list BackendRecipe)) (st : State) : State :=
  if negb (JS.truthy (JS.trim searchQuery)) then
    let st :=
      match o with
      | Resolves true (Some recipeData) => setRecipes recipeData st
      | _ => st
      end in
    setIsSearching false st
  else
    let st :=
      match o with
      | Resolves true (Some searchResults) =>
          let st := setRecipes searchResults st in
          if (length searchResults =? 0)%nat then
            setError (Some
              "No recipes found for your ingredients. Try different ingredients or check spelling.")
              st
          else st
      | Resolves true None => setError (Some "Search failed. Please try again.") st
      | Resolves false _ => setError (Some "Search failed. Please try again.") st
      | Rejects => setError (Some "Search failed. Please try again.") st
      end in
    setIsSearching false st.

(** [loadRecipes] up to the [await]. *)
Definition loadRecipes_start (st : State) : State :=
  setError None (setLoading true st).

(** [loadRecipes] after the [await]. *)
Definition loadRecipes_finish
  (o : FetchOutcome (list BackendRecipe)) (st : State) : State :=
  let st :=
    match o with
    | Resolves true (Some categoryRecipes) => setRecipes categoryRecipes st
    | Resolves true None => setError (Some "Failed to load recipes") st
    | Resolves false _ => setError (Some "Failed to load recipes") st
    | Rejects => setError (Some "Failed to load recipes") st
    end in
  setLoading false st.

(** What can happen to the component: an effect starts or finishes with
    the outcome of its request, or the user clicks a category button. *)
Inductive Event :=
| CategoriesLoaded (o : FetchOutcome (list string))
| InitialStarted
| InitialFinished (o : FetchOutcome (list BackendRecipe))
| SearchStarted (searchQuery : string)
| SearchFinished (searchQuery : string) (o : FetchOutcome (list BackendRecipe))
| CategoryStarted
| CategoryFinished (o : FetchOutcome (list BackendRecipe))
| CategoryClicked (category : string).

Definition step (st : State) (e : Event) : State :=
  match e with
  | CategoriesLoaded o => loadCategories o st
  | InitialStarted => loadInitialRecipes_start st
  | InitialFinished o => loadInitialRecipes_finish o st
  | SearchStarted q => searchRecipes_start q st
  | SearchFinished q o => searchRecipes_finish q o st
  | CategoryStarted => loadRecipes_start st
  | CategoryFinished o => loadRecipes_finish o st
  | CategoryClicked c => setSelectedCategory c st
  end.

(** The state after a sequence of events, from the initial state. *)
Definition run (events : list Event) : State := fold_left step events initial.

(** The batch a finishing event stores, if any. *)
Definition stored (e : Event) : option (list BackendRecipe) :=
  match e with
  | InitialFinished (Resolves true (Some data)) => Some data
  | SearchFinished _ (Resolves true (Some data)) => Some data
  | CategoryFinished (Resolves true (Some data)) => Some data
  | _ => None
  end.

(** The messages the component ever puts in its error cell. *)
Definition messages : list string :=
  ["Failed to load recipes";
   "Search failed. Please try again.";
   "No recipes found for your ingredients. Try different ingredients or check spelling."].

(** What holds of every state the component can be in. *)
Definition wellFormed (st : State) : Prop :=
  head (categories st) = Some "All" /\
  (error st = None \/ exists m, In m messages /\ error st = Some m).

(** *** Titles and notices *)

Definition getDisplayTitle (searchQuery selectedCategory : string) : string :=
  if JS.truthy (JS.trim searchQuery) then "Recipe Recommendations"
  else if negb (String.eqb selectedCategory "All")
  then selectedCategory ++ " Recipes"
  else "Featured Recipes".

Definition getDisplaySubtitle (searchQuery selectedCategory : string) : string :=
  if JS.truthy (JS.trim searchQuery) then
    "Based on your ingredients: " ++ JS.join ", " (ingredientsOf searchQuery)
  else if negb (String.eqb selectedCategory "All")
  then "Discover delicious " ++ JS.toLowerCase selectedCategory ++ " cuisine"
  else "Discover culinary masterpieces from around the world".

(** [{error && (...)}]: the red box with the message. *)
Definition errorBanner (st : State) : option string :=
  match error st with
  | Some e => if JS.truthy e then Some e else None
  | None => None
  end.

(** [{(loading || isSearching) && (...)}]: the spinner and its label. *)
Definition spinner (st : State) : option string :=
  if loading st || isSearching st then
    Some (if isSearching st then "Searching recipes..."
          else "Loading delicious recipes...")
  else None.

(** [{!loading && !isSearching && filteredRecipes.length === 0 && !error
    && (...)}]: the "No recipes found" paragraph. *)
Definition emptyHint (st : State) : bool :=
  negb (loading st) && negb (isSearching st) &&
  (length (filteredRecipes (recipes st) (selectedCategory st)) =? 0)%nat &&
  match errorBanner st with Some _ => false | None => true end.

(** [r.similarityScore] as a condition. *)
Definition hasScore (r : BackendRecipe) : bool :=
  match similarityScore r with
  | Some s => JS.truthyNum s
  | None => false
  end.

(** [{searchQuery.trim() && filteredRecipes.length > 0 && (...)}]: the
    count under the grid, and whether the line about ranking is there
    ([filteredRecipes.some(r => r.similarityScore)]). *)
Definition footer (searchQuery : string) (st : State) : option (nat * bool) :=
  let shown := filteredRecipes (recipes st) (selectedCategory st) in
  if JS.truthy (JS.trim searchQuery) && (0 <? length shown)%nat then
    Some (length shown, existsb hasScore shown)
  else None.

End Backend.

(** ** RecipeGrid, the react-query variant *)

Module Query.

Local Open Scope string_scope.

(** The [Recipe] of [RecipeCard]. *)
Record Recipe := mkRecipe {
  id : string;
  title : string;
  description : string;
  image : string;
  cookTime : Q;
  servings : Q;
  rating : Q;
  category : string;
  difficulty : string;
  ingredients : list string;
  instructions : list string
}.

Definition fetchRecipes_request : Request := GET "/api/recipes".

Definition searchRecipesByIngredients_request (ingredients : list string)
  : Request :=
  POST "/api/recipes/search"
    {| body_ingredients := ingredients; body_top_n := 12 |}.

Definition fetchCategories_request : Request :=
  GET "/api/recipes/categories".

(** The three API functions throw on a response that is not [ok]; the
    query then has an error and no data. *)
Definition queryResult {A : Type} (o : FetchOutcome A) : option A :=
  match o with
  | Resolves true (Some data) => Some data
  | _ => None
  end.

(** The effect that parses the search query into [searchIngredients]. *)
Definition searchIngredients (searchQuery : string) : list string :=
  if JS.truthy (JS.trim searchQuery) then
    List.filter (fun ing => (0 <? String.length ing)%nat)
      (map JS.trim (JS.split searchQuery))
  else [].

(** The [queryFn] of the recipes query. *)
Definition recipes_request (searchIngredients : list string) : Request :=
  if (0 <? length searchIngredients)%nat
  then searchRecipesByIngredients_request searchIngredients
  else fetchRecipes_request.

(** Every request the component issues for a given search query: the
    categories query, the recipes query of the first render, when
    [searchIngredients] is still the initial empty array, and the recipes
    query once the effect has parsed the search query. *)
Definition requests (searchQuery : string) : list Request :=
  [fetchCategories_request; recipes_request [];
   recipes_request (searchIngredients searchQuery)].

(** [recipe.category?.toLowerCase().includes(...)]: [category] is a
    string, so the optional chaining always goes through. *)
Definition filteredRecipes (recipes : list Recipe)
  (selectedCategory : string) : list Recipe :=
  if String.eqb selectedCategory "All" then recipes
  else
    List.filter
      (fun recipe =>
         JS.includes (JS.toLowerCase (category recipe))
                     (JS.toLowerCase selectedCategory))
      recipes.

(** [['All', ...categories.slice(0, 10)]] *)
Definition allCategories (categories : list string) : list string :=
  "All" :: take 10 categories.

(** The category bar is rendered when [allCategories.length > 1]. *)
Definition categoryButtons (categories : list string) : list string :=
  if (1 <? length (allCategories categories))%nat
  then allCategories categories else [].

(** The cards of the grid in display order, each with its React key. *)
Definition grid (recipes : list Recipe) (selectedCategory : string)
  : list (string * Recipe) :=
  map (fun recipe => (id recipe, recipe))
      (filteredRecipes recipes selectedCategory).

(** The heading and the line under it. *)
Definition heading (searchIngredients : list string) : string :=
  if (0 <? length searchIngredients)%nat
  then "Recipe Recommendations" else "Featured Recipes".

Definition subheading (searchIngredients : list string) : string :=
  if (0 <? length searchIngredients)%nat
  then "Based on your ingredients: " ++ JS.join ", " searchIngredients
  else "Discover culinary masterpieces from around the world".

End Query.

(** ** The HTTP surface *)

(** The five endpoints of the API. *)
Inductive Endpoint :=
| EpSearch
| EpRandom
| EpByCategory
| EpCategories
| EpHealth.

(** The part of a URL before its query string. *)
Fixpoint pathOf (url : string) : string :=
  match url with
  | EmptyString => EmptyString
  | String c url' =>
      if (nat_of_ascii c =? 63)%nat then EmptyString
      else String c (pathOf url')
  end.

(** [stripPrefix p s] is what follows [p] in [s]. *)
Fixpoint stripPrefix (p s : string) : option string :=
  match p, s with
  | EmptyString, _ => Some s
  | String a p', String b s' =>
      if Ascii.eqb a b then stripPrefix p' s' else None
  | String _ _, EmptyString => None
  end.

(** Neither a slash nor a question mark. *)
Definition plain (c : ascii) : bool :=
  negb (nat_of_ascii c =? 47)%nat && negb (nat_of_ascii c =? 63)%nat.

(** One path segment: not empty and without a slash. *)
Definition isSegment (s : string) : bool :=
  JS.truthy s &&
  forallb (fun c => negb (nat_of_ascii c =? 47)%nat) (list_ascii_of_string s).

(** Modelled from the spec: the server's routes are not part of the
    sources; this table is the endpoint list of the specification's
    external interfaces (a method and a path each, [{category}] being one
    path segment, [random] taking its count as a query string). *)
Definition endpointOf (r : Request) : option Endpoint :=
  match r with
  | POST url _ =>
      if String.eqb url "/api/recipes/search" then Some EpSearch else None
  | GET url =>
      let path := pathOf url in
      if String.eqb path "/api/recipes/random" then Some EpRandom
      else if String.eqb path "/api/recipes/categories" then Some EpCategories
      else if String.eqb path "/api/health" then Some EpHealth
      else
        match stripPrefix "/api/recipes/by-category/" path with
        | Some seg => if isSegment seg then Some EpByCategory else None
        | None => None
        end
  end.

(** The listed endpoints that some component does request. *)
Definition requested (e : option Endpoint) : Prop :=
  e = Some EpSearch \/ e = Some EpRandom \/
  e = Some EpByCategory \/ e = Some EpCategories.

(** Modelled from the spec: the server's category lookup is not part of
    the sources; the specification describes it as an exact match of the
    case-normalized category.  [exactCategoryMatch selected category]
    tells whether a recipe of that category is in the server's answer
    for [selected]. *)
Definition exactCategoryMatch (selected category : string) : bool :=
  String.eqb (JS.toLowerCase category) (JS.toLowerCase selected).


(** ** Sample data *)

Module Sample.

Local Open Scope string_scope.

(** A recipe as the server sends it, with the given id, category, rating
    and score. *)
Definition backendRecipe (id category : string) (rating : Q)
  (score : option Q) : Backend.BackendRecipe :=
  {| Backend.id := id;
     Backend.title := "Green Curry";
     Backend.description := "A fragrant curry";
     Backend.image := "https://images.example/curry.jpg";
     Backend.cookTime := 35;
     Backend.servings := 4;
     Backend.rating := rating;
     Backend.category := category;
     Backend.difficulty := "Medium";
     Backend.ingredients := ["2 cups rice"; "1 lb chicken"];
     Backend.instructions := ["Cook the rice."; "Simmer the chicken."];
     Backend.nutrition :=
       {| Backend.calories := Some 520%Q; Backend.protein := None;
          Backend.fat := None; Backend.carbs := None |};
     Backend.similarityScore := score |}.

Definition recipe (id category : string) : Query.Recipe :=
  {| Query.id := id;
     Query.title := "Truffle Risotto with Wild Mushrooms";
     Query.description := "Creamy arborio rice";
     Query.image := "https://images.example/risotto.jpg";
     Query.cookTime := 45;
     Query.servings := 4;
     Query.rating := 48 # 10;
     Query.category := category;
     Query.difficulty := "Medium";
     Query.ingredients := ["2 cups arborio rice"];
     Query.instructions := ["Stir until creamy."] |}.

Definition chickenBreast : Backend.BackendRecipe :=
  backendRecipe "7" "Chicken Breast" (45 # 10) (Some (62 # 100)).

Definition dessert : Backend.BackendRecipe :=
  backendRecipe "3" "Dessert" (49 # 10) (Some (81 # 100)).

Definition unscored : Backend.BackendRecipe :=
  backendRecipe "9" "Chicken" 4 (Some 0%Q).

End Sample.

(** ** The ranking engine, from its contract

    The engine behind the API is not part of the sources.  The
    definitions of this module follow the specification of its Ranker
    and of its QueryService; weights, scores and ratings are real
    numbers. *)

Module Engine.

Local Open Scope R_scope.

#[global] Instance R_eq_dec : EqDecision R := Req_dec_T.

Inductive Difficulty := Easy | Medium | Hard.

(** Modelled from the spec: the immutable Recipe record of the data
    model, without its id, which is the key of the Index. *)
Record Recipe := mkRecipe {
  title : string;
  description : string;
  image : string;
  cookTime : positive;
  servings : positive;
  rating : R;
  category : string;
  difficulty : Difficulty;
  ingredients : list string;
  instructions : list string;
  nutrition : gmap string (option R)
}.

(** Modelled from the spec: the Index owns [id -> Recipe] and
    [id -> RecipeVector]; a vector is a sparse mapping from vocabulary
    index to weight. *)
Record Index := mkIndex {
  recipes : gmap string Recipe;
  vectors : gmap string (gmap nat R)
}.

Inductive Error := InvalidQuery | InvalidArgument | EmptyCorpus | InternalError.

(** The weight of a vector at an index, 0 where the mapping is silent. *)
Definition weight (v : gmap nat R) (i : nat) : R := default 0 (v !! i).

(** Modelled from the spec: the score is the dot product of the query
    vector and the recipe vector. *)
Definition dot (q v : gmap nat R) : R :=
  map_fold (fun i w acc => w * weight v i + acc) 0 q.

(** The square of the Euclidean norm. *)
Definition norm2 (v : gmap nat R) : R :=
  map_fold (fun _ w acc => w * w + acc) 0 v.

(** Modelled from the spec: a RecipeVector or QueryVector has
    non-negative weights and is L2-normalized, or is the zero vector. *)
Definition wf_vector (v : gmap nat R) : Prop :=
  map_Forall (fun _ w => 0 <= w) v /\ (norm2 v = 1 \/ norm2 v = 0).

(** Modelled from the spec: every id is present in each mapping of the
    Index, and every stored vector is well formed. *)
Definition wf_index (idx : Index) : Prop :=
  dom (recipes idx) = dom (vectors idx) /\
  map_Forall (fun _ v => wf_vector v) (vectors idx).

Definition corpusSize (idx : Index) : nat := size (vectors idx).

Definition ratingOf (idx : Index) (id : string) : R :=
  match recipes idx !! id with
  | Some r => rating r
  | None => 0
  end.

(** Modelled from the spec: the tie-break of the Ranker.  [a] goes
    before [b] when its score is higher, or the scores are equal and its
    rating is higher, or both are equal and its id is not greater. *)
Definition before (idx : Index) (a b : string * R) : bool :=
  if Rlt_dec b.2 a.2 then true
  else if Rlt_dec a.2 b.2 then false
  else if Rlt_dec (ratingOf idx b.1) (ratingOf idx a.1) then true
  else if Rlt_dec (ratingOf idx a.1) (ratingOf idx b.1) then false
  else String.leb a.1 b.1.

(** The same order as a proposition. *)
Definition RankedBefore (idx : Index) (a b : string * R) : Prop :=
  b.2 < a.2 \/
  (a.2 = b.2 /\
   (ratingOf idx b.1 < ratingOf idx a.1 \/
    (ratingOf idx a.1 = ratingOf idx b.1 /\ String.leb a.1 b.1 = true))).

Fixpoint insertRanked (idx : Index) (x : string * R) (l : list (string * R))
  : list (string * R) :=
  match l with
  | [] => [x]
  | y :: l' =>
      if before idx x y then x :: y :: l' else y :: insertRanked idx x l'
  end.

Fixpoint sortRanked (idx : Index) (l : list (string * R))
  : list (string * R) :=
  match l with
  | [] => []
  | x :: l' => insertRanked idx x (sortRanked idx l')
  end.

(** The score of every recipe of the Index: the full scan. *)
Definition scoreAll (q : gmap nat R) (idx : Index) : list (string * R) :=
  (fun p : string * gmap nat R => (p.1, dot q p.2)) <$>
  map_to_list (vectors idx).

(** [topN] clamped to [[1, corpus size]]. *)
Definition clamp (idx : Index) (topN : Z) : nat :=
  Z.to_nat (Z.min (Z.max topN 1) (Z.of_nat (corpusSize idx))).

(** Modelled from the spec: [rank(queryVector, index, topN)].  A
    [topN <= 0] fails with [InvalidArgument]; every recipe is scored; if
    every candidate scores 0 the result is empty; otherwise the
    candidates are ordered by the tie-break and the first [topN],
    clamped, are returned. *)
Definition rank (q : gmap nat R) (idx : Index) (topN : Z)
  : Error + list (string * R) :=
  if (topN <=? 0)%Z then inl InvalidArgument
  else
    let scored := scoreAll q idx in
    if forallb (fun p : string * R => bool_decide (p.2 = 0)) scored
    then inr []
    else inr (take (clamp idx topN) (sortRanked idx scored)).

(** An entry of a search response: the recipe with its id and its
    similarity score. *)
Record Hit := mkHit {
  hit_id : string;
  hit_recipe : Recipe;
  hit_score : R
}.

(** A hit without its record: the pair the Ranker returned. *)
Definition ranking (h : Hit) : string * R := (hit_id h, hit_score h).

(** The ranked ids joined back to their records; a missing record is a
    fault. *)
Fixpoint joinHits (idx : Index) (ranked : list (string * R))
  : option (list Hit) :=
  match ranked with
  | [] => Some []
  | (id, s) :: rest =>
      match recipes idx !! id, joinHits idx rest with
      | Some r, Some hits =>
          Some ({| hit_id := id; hit_recipe := r; hit_score := s |} :: hits)
      | _, _ => None
      end
  end.

(** An ingredient line of white space only. *)
Definition blank (line : string) : bool := negb (JS.truthy (JS.trim line)).

Section QueryService.

(** The Normalizer and the Vectorizer on the frozen Vocabulary: the
    query vector of the ingredient lines of a request. *)
Variable queryVector : list string -> gmap nat R.

(** Modelled from the spec: the QueryService's search.  Empty or
    white-space-only ingredient input fails with [InvalidQuery]; so does
    a non-positive [top_n], which the Ranker reports as
    [InvalidArgument]; otherwise the ranked entries are joined back to
    their recipes. *)
Definition search (idx : Index) (ingredients : list string) (top_n : Z)
  : Error + list Hit :=
  if forallb blank ingredients then inl InvalidQuery
  else
    match rank (queryVector ingredients) idx top_n with
    | inl InvalidArgument => inl InvalidQuery
    | inl e => inl e
    | inr ranked =>
        match joinHits idx ranked with
        | Some hits => inr hits
        | None => inl InternalError
        end
    end.

End QueryService.

End Engine.

(** ** A sample corpus *)

Module Corpus.

Import Engine.
Local Open Scope R_scope.
Local Open Scope string_scope.

Definition recipe (title : string) (rating : R) : Recipe :=
  {| title := title;
     description := "";
     image := "";
     cookTime := 30;
     servings := 4;
     rating := rating;
     category := "Chicken Breast";
     difficulty := Easy;
     ingredients := ["chicken"; "rice"];
     instructions := ["Cook."];
     nutrition := ∅ |}.

(** Two recipes over a vocabulary of two tokens. *)
Definition vectorA : gmap nat R := <[0%nat := 3 / 5]> (<[1%nat := 4 / 5]> ∅).
Definition vectorB : gmap nat R := <[1%nat := 1]> ∅.

Definition index : Index :=
  {| recipes := <["A" := recipe "Chicken and rice" 4]>
                  (<["B" := recipe "Rice" 5]> ∅);
     vectors := <["A" := vectorA]> (<["B" := vectorB]> ∅) |}.

(** The query vector of the token of index 0. *)
Definition query : gmap nat R := <[0%nat := 1]> ∅.

(** A query of which no token is in the vocabulary. *)
Definition unknownTokens (_ : list string) : gmap nat R := ∅.

End Corpus.

(** ** The recipe modal and the cells that drive it *)

Module Modal.

(** The two [useState] cells every grid keeps for the modal. *)
Record State (A : Type) := mkState {
  selectedRecipe : option A;
  isModalOpen : bool
}.
Arguments mkState {A}.
Arguments selectedRecipe {A}.
Arguments isModalOpen {A}.

Definition initial {A : Type} : State A :=
  {| selectedRecipe := None; isModalOpen := false |}.

(** [setSelectedRecipe(recipe); setIsModalOpen(true)] *)
Definition handleRecipeClick {A : Type} (recipe : A) (st : State A) : State A :=
  {| selectedRecipe := Some recipe; isModalOpen := true |}.

(** [setIsModalOpen(false); setSelectedRecipe(null)] *)
Definition handleCloseModal {A : Type} (st : State A) : State A :=
  {| selectedRecipe := None; isModalOpen := false |}.

(** [RecipeModal]: [if (!isOpen || !recipe) return null], and the
    recipe it shows otherwise. *)
Definition RecipeModal {A : Type} (recipe : option A) (isOpen : bool)
  : option A :=
  if negb isOpen || match recipe with Some _ => false | None => true end
  then None else recipe.

(** What the grid shows in the modal's place. *)
Definition shown {A : Type} (st : State A) : option A :=
  RecipeModal (selectedRecipe st) (isModalOpen st).

(** A click on a card, or on the modal's close button. *)
Inductive Event (A : Type) :=
| Click (recipe : A)
| Close.
Arguments Click {A}.
Arguments Close {A}.

Definition step {A : Type} (st : State A) (e : Event A) : State A :=
  match e with
  | Click recipe => handleRecipeClick recipe st
  | Close => handleCloseModal st
  end.

Definition run {A : Type} (events : list (Event A)) : State A :=
  fold_left step events initial.

End Modal.

(** ** RecipeGrid over the sample recipes *)

Module Local.

Local Open Scope string_scope.

Definition sample1 : Query.Recipe :=
  {| Query.id := "1";
     Query.title := "Truffle Risotto with Wild Mushrooms";
     Query.description :=
       "Creamy arborio rice cooked to perfection with premium truffle oil and fresh wild mushrooms";
     Query.image :=
       "https://images.unsplash.com/photo-1476124369491-e7addf5db371?w=800&h=600&fit=crop";
     Query.cookTime := 45;
     Query.servings := 4;
     Query.rating := 48 # 10;
     Query.category := "Italian";
     Query.difficulty := "Medium";
     Query.ingredients :=
       ["2 cups arborio rice";
        "1 lb mixed wild mushrooms";
        "6 cups warm vegetable broth";
        "1/2 cup white wine";
        "1/4 cup truffle oil";
        "1/2 cup parmesan cheese, grated";
        "2 shallots, finely chopped";
        "3 cloves garlic, minced";
        "Fresh thyme sprigs";
        "Salt and pepper to taste"];
     Query.instructions :=
       ["Heat olive oil in a large pan and sauté mushrooms until golden. Set aside.";
        "In the same pan, cook shallots and garlic until fragrant.";
        "Add arborio rice, stirring for 2 minutes until lightly toasted.";
        "Pour in white wine and stir until absorbed.";
        "Add warm broth one ladle at a time, stirring constantly.";
        "Continue until rice is creamy and al dente, about 20 minutes.";
        "Stir in mushrooms, truffle oil, and parmesan.";
        "Season with salt, pepper, and fresh thyme before serving."] |}.

Definition sample2 : Query.Recipe :=
  {| Query.id := "2";
     Query.title := "Mediterranean Grilled Salmon";
     Query.description :=
       "Fresh Atlantic salmon with Mediterranean herbs, lemon, and olive tapenade";
     Query.image :=
       "https://images.unsplash.com/photo-1467003909585-2f8a72700288?w=800&h=600&fit=crop";
     Query.cookTime := 25;
     Query.servings := 2;
     Query.rating := 49 # 10;
     Query.category := "Mediterranean";
     Query.difficulty := "Easy";
     Query.ingredients :=
       ["2 salmon fillets (6 oz each)";
        "1/4 cup olive oil";
        "2 lemons, juiced and zested";
        "3 cloves garlic, minced";
        "2 tbsp fresh oregano";
        "1 tbsp fresh thyme";
        "1/2 cup kalamata olives";
        "2 tbsp capers";
        "1/2 red onion, thinly sliced";
        "Sea salt and black pepper"];
     Query.instructions :=
       ["Preheat grill to medium-high heat.";
        "Mix olive oil, lemon juice, zest, garlic, and herbs in a bowl.";
        "Marinate salmon fillets for 15 minutes.";
        "Season with salt and pepper.";
        "Grill salmon for 4-5 minutes per side until flaky.";
        "Prepare tapenade with olives, capers, and red onion.";
        "Serve salmon with tapenade and lemon wedges."] |}.

Definition sample3 : Query.Recipe :=
  {| Query.id := "3";
     Query.title := "Thai Green Curry with Jasmine Rice";
     Query.description :=
       "Aromatic green curry with coconut milk, fresh vegetables, and fragrant jasmine rice";
     Query.image :=
       "https://images.unsplash.com/photo-1455619452474-d2be8b1e70cd?w=800&h=600&fit=crop";
     Query.cookTime := 35;
     Query.servings := 6;
     Query.rating := 47 # 10;
     Query.category := "Thai";
     Query.difficulty := "Medium";
     Query.ingredients :=
       ["2 cups jasmine rice";
        "2 cans coconut milk";
        "3 tbsp green curry paste";
        "1 lb chicken thigh, cubed";
        "1 eggplant, cubed";
        "1 bell pepper, sliced";
        "1 cup green beans";
        "1/4 cup fish sauce";
        "2 tbsp brown sugar";
        "Thai basil leaves";
        "2 kaffir lime leaves";
        "1 red chili, sliced"];
     Query.instructions :=
       ["Cook jasmine rice according to package instructions.";
        "Heat thick coconut milk in a wok over medium heat.";
        "Add green curry paste and fry until fragrant.";
        "Add chicken and cook until nearly done.";
        "Add remaining coconut milk, vegetables, and seasonings.";
        "Simmer for 15 minutes until vegetables are tender.";
        "Stir in Thai basil and lime leaves.";
        "Serve hot over jasmine rice with fresh chili."] |}.

Definition sample4 : Query.Recipe :=
  {| Query.id := "4";
     Query.title := "French Chocolate Soufflé";
     Query.description :=
       "Light and airy chocolate soufflé with a molten center and powdered sugar dusting";
     Query.image :=
       "https://images.unsplash.com/photo-1551024506-0bccd828d307?w=800&h=600&fit=crop";
     Query.cookTime := 40;
     Query.servings := 4;
     Query.rating := 46 # 10;
     Query.category := "French";
     Query.difficulty := "Hard";
     Query.ingredients :=
       ["6 oz dark chocolate (70%)";
        "6 large eggs, separated";
        "1/3 cup granulated sugar";
        "2 tbsp butter";
        "2 tbsp all-purpose flour";
        "1 cup whole milk";
        "1 tsp vanilla extract";
        "Pinch of salt";
        "Butter and sugar for ramekins";
        "Powdered sugar for dusting"];
     Query.instructions :=
       ["Preheat oven to 375°F. Butter and sugar 4 ramekins.";
        "Melt chocolate in double boiler until smooth.";
        "Make pastry cream with milk, flour, and egg yolks.";
        "Combine chocolate with pastry cream and vanilla.";
        "Whip egg whites with salt until soft peaks form.";
        "Gradually add sugar, whip to stiff peaks.";
        "Fold 1/3 of whites into chocolate, then fold in remaining.";
        "Fill ramekins 3/4 full, bake 12-15 minutes until risen.";
        "Dust with powdered sugar and serve immediately."] |}.

Definition sample5 : Query.Recipe :=
  {| Query.id := "5";
     Query.title := "Korean Bibimbap Bowl";
     Query.description :=
       "Colorful rice bowl with seasoned vegetables, marinated beef, and gochujang sauce";
     Query.image :=
       "https://images.unsplash.com/photo-1498654896293-37aacf113fd9?w=800&h=600&fit=crop";
     Query.cookTime := 50;
     Query.servings := 4;
     Query.rating := 48 # 10;
     Query.category := "Korean";
     Query.difficulty := "Medium";
     Query.ingredients :=
       ["2 cups short-grain rice";
        "1 lb thinly sliced beef";
        "2 cups spinach";
        "1 large carrot, julienned";
        "1 zucchini, julienned";
        "1 cup bean sprouts";
        "4 shiitake mushrooms, sliced";
        "4 eggs";
        "1/4 cup gochujang";
        "2 tbsp sesame oil";
        "3 tbsp soy sauce";
        "2 tbsp rice vinegar";
        "1 tbsp brown sugar";
        "3 cloves garlic, minced";
        "1 tbsp sesame seeds"];
     Query.instructions :=
       ["Cook rice according to package instructions.";
        "Marinate beef in soy sauce, garlic, and sesame oil.";
        "Blanch spinach and season with sesame oil and salt.";
        "Sauté each vegetable separately with light seasoning.";
        "Cook marinated beef until browned and cooked through.";
        "Fry eggs sunny-side up with crispy edges.";
        "Mix gochujang with sesame oil, vinegar, and sugar.";
        "Arrange rice in bowls, top with vegetables and beef.";
        "Top each bowl with fried egg and serve with sauce.";
        "Sprinkle with sesame seeds before serving."] |}.

Definition sample6 : Query.Recipe :=
  {| Query.id := "6";
     Query.title := "Moroccan Lamb Tagine";
     Query.description :=
       "Slow-cooked lamb with apricots, almonds, and aromatic North African spices";
     Query.image :=
       "https://images.unsplash.com/photo-1572441713132-51aa6eca671b?w=800&h=600&fit=crop";
     Query.cookTime := 120;
     Query.servings := 6;
     Query.rating := 49 # 10;
     Query.category := "Moroccan";
     Query.difficulty := "Medium";
     Query.ingredients :=
       ["3 lbs lamb shoulder, cubed";
        "1 large onion, diced";
        "3 cloves garlic, minced";
        "1 cup dried apricots";
        "1/2 cup almonds, slivered";
        "2 tsp ground cinnamon";
        "1 tsp ground ginger";
        "1 tsp ground cumin";
        "1/2 tsp saffron threads";
        "2 cups beef broth";
        "1 can crushed tomatoes";
        "2 tbsp honey";
        "1/4 cup fresh cilantro";
        "Salt and pepper to taste"];
     Query.instructions :=
       ["Heat oil in tagine or heavy pot over medium-high heat.";
        "Brown lamb pieces on all sides, then remove.";
        "Sauté onions until golden, add garlic and spices.";
        "Return lamb to pot with tomatoes and broth.";
        "Add saffron, honey, and apricots.";
        "Bring to boil, then reduce heat and simmer covered.";
        "Cook for 1.5-2 hours until lamb is tender.";
        "Add almonds in last 15 minutes of cooking.";
        "Garnish with fresh cilantro and serve with couscous."] |}.

Definition SAMPLE_RECIPES : list Query.Recipe :=
  [sample1; sample2; sample3; sample4; sample5; sample6].

Definition CATEGORIES : list string :=
  ["All"; "Italian"; "Mediterranean"; "Thai"; "French"; "Korean"; "Moroccan"].

(** The callback of the filter: the search text occurs in the title,
    the description or the category, letter case aside, and the
    category is the selected one. *)
Definition keeps (searchQuery selectedCategory : string)
  (recipe : Query.Recipe) : bool :=
  let matchesSearch :=
    JS.includes (JS.toLowerCase (Query.title recipe))
                (JS.toLowerCase searchQuery) ||
    JS.includes (JS.toLowerCase (Query.description recipe))
                (JS.toLowerCase searchQuery) ||
    JS.includes (JS.toLowerCase (Query.category recipe))
                (JS.toLowerCase searchQuery) in
  let matchesCategory :=
    String.eqb selectedCategory "All" ||
    String.eqb (Query.category recipe) selectedCategory in
  matchesSearch && matchesCategory.

Definition filteredRecipes (searchQuery selectedCategory : string)
  : list Query.Recipe :=
  List.filter (keeps searchQuery selectedCategory) SAMPLE_RECIPES.

End Local.
(** * Proofs *)

(** ** The operations on concrete inputs *)

Section Examples.

Local Open Scope string_scope.

Example split_ingredients :
  JS.split "chicken, rice  onion" = ["chicken"; "rice"; "onion"].
Proof. reflexivity. Qed.

Example split_edges : JS.split " a,,b " = [""; "a"; "b"; ""].
Proof. reflexivity. Qed.

Example split_comma : JS.split "," = [""; ""].
Proof. reflexivity. Qed.

Example split_empty : JS.split "" = [""].
Proof. reflexivity. Qed.

Example trim_both_ends : JS.trim "  olive oil " = "olive oil".
Proof. reflexivity. Qed.

Example includes_inside :
  JS.includes (JS.toLowerCase "Chicken Breast") (JS.toLowerCase "BREAST")
  = true.
Proof. reflexivity. Qed.

Example encode_category :
  Backend.loadRecipes_request "Chicken Breast" =
  GET "/api/recipes/by-category/Chicken%20Breast".
Proof. reflexivity. Qed.

Example round_half_up :
  JS.Math_round (5 # 10) = 1%Z /\ JS.Math_round (25 # 10) = 3%Z /\
  JS.Math_round (-15 # 10) = (-1)%Z /\ JS.Math_round (794 # 10) = 79%Z.
Proof. repeat split. Qed.

Example search_request_of_query :
  Backend.searchRecipes_request " chicken, rice " =
  POST "/api/recipes/search"
    {| body_ingredients := ["chicken"; "rice"]; body_top_n := 12 |}.
Proof. reflexivity. Qed.

Example twelve_categories :
  Query.categoryButtons
    ["a"; "b"; "c"; "d"; "e"; "f"; "g"; "h"; "i"; "j"; "k"; "l"] =
  ["All"; "a"; "b"; "c"; "d"; "e"; "f"; "g"; "h"; "i"; "j"].
Proof. reflexivity. Qed.

Example no_categories : Query.categoryButtons [] = [].
Proof. reflexivity. Qed.

(** The card on its own, told to show the score of a recipe whose score
    is 0, prints that number; the grid never tells it so. *)
Example card_alone_zero :
  Card.badgeSlot (fun x => x)
    (Backend.convertToRecipeCardFormat Sample.unscored) true
  = Card.NumberText 0.
Proof. reflexivity. Qed.

End Examples.

(** ** Facts about the string operations *)

Section JSFacts.

Import JS.
Local Open Scope string_scope.

Lemma prefix_spec (t s : string) :
  String.prefix t s = true <-> exists post, s = t ++ post.
Proof.
  revert s; induction t as [|c t IH]; intros s; simpl.
  - destruct s; split; eauto.
  - destruct s as [|d s].
    + split; [discriminate | intros [post H]; discriminate].
    + simpl. destruct (Ascii.ascii_dec c d) as [->|Hne].
      * rewrite IH. split; intros [post H]; exists post; congruence.
      * split; [discriminate | intros [post H]; congruence].
Qed.

Lemma includes_spec (s t : string) :
  includes s t = true <-> Substring t s.
Proof.
  unfold Substring. induction s as [|c s IH].
  - cbn [includes]. rewrite orb_false_r, prefix_spec. split.
    + intros [post H]. exists "", post. exact H.
    + intros [pre [post H]]. destruct pre; [eauto | discriminate].
  - cbn [includes]. rewrite orb_true_iff, prefix_spec, IH. split.
    + intros [[post H] | [pre [post H]]].
      * exists "", post. exact H.
      * exists (String c pre), post. simpl. congruence.
    + intros [[|d pre] [post H]].
      * left. exists post. exact H.
      * right. exists pre, post. simpl in H. congruence.
Qed.

#[global] Instance Substring_dec (t s : string) : Decision (Substring t s).
Proof.
  destruct (includes s t) eqn:E.
  - left. apply includes_spec, E.
  - right. intros H. apply includes_spec in H. congruence.
Defined.

End JSFacts.

(** ** The category filter *)

Section CategoryFilter.

Import JS.
Local Open Scope string_scope.

(** A boolean filter keeps exactly the elements of the property it
    decides. *)
Lemma filter_reflect {A : Type} (f : A -> bool) (P : A -> Prop)
  `{!forall x, Decision (P x)} (l : list A) :
  (forall x, f x = true <-> P x) -> List.filter f l = filter P l.
Proof.
  intros Hf. induction l as [|x l IH]; [reflexivity|].
  cbn [List.filter]. destruct (f x) eqn:E.
  - rewrite filter_cons_True by (apply Hf; exact E). now rewrite IH.
  - rewrite filter_cons_False; [exact IH|].
    intros HP. apply Hf in HP. congruence.
Qed.

Lemma toLowerCase_app (s t : string) :
  toLowerCase (s ++ t) = toLowerCase s ++ toLowerCase t.
Proof. induction s as [|c s IH]; simpl; congruence. Qed.

Lemma append_length (s t : string) :
  String.length (s ++ t) = (String.length s + String.length t)%nat.
Proof. induction s as [|c s IH]; simpl; congruence. Qed.

Lemma append_empty_r (s : string) : s ++ "" = s.
Proof. induction s as [|c s IH]; simpl; congruence. Qed.

Lemma not_All_eqb (sel : string) : sel <> "All" -> String.eqb sel "All" = false.
Proof. intros H. now apply String.eqb_neq. Qed.

Lemma exact_implies_substring (sel c : string) :
  exactCategoryMatch sel c = true ->
  Substring (toLowerCase sel) (toLowerCase c).
Proof.
  unfold exactCategoryMatch. intros H. apply String.eqb_eq in H.
  exists "", "". rewrite H, append_empty_r. reflexivity.
Qed.

Lemma substring_not_exact (sel : string) :
  Substring (toLowerCase sel) (toLowerCase (sel ++ " Breast")) /\
  exactCategoryMatch sel (sel ++ " Breast") = false.
Proof.
  split.
  - exists "", (toLowerCase " Breast"). now rewrite toLowerCase_app.
  - unfold exactCategoryMatch. apply String.eqb_neq. intros H.
    apply (f_equal String.length) in H.
    rewrite toLowerCase_app, append_length in H. simpl in H. lia.
Qed.

(** C1.  For a selected category other than "All", both grids display
    exactly the recipes of the batch whose lowercased category contains
    the lowercased selection as a substring, in the order of the batch.
    This is weaker than the exact lookup: whatever matches exactly is
    kept, and some category that does not match exactly is kept too. *)
Theorem category_filter_substring_policy
  (sel : string) (batch : list Backend.BackendRecipe)
  (batch' : list Query.Recipe) :
  sel <> "All" ->
  Backend.filteredRecipes batch sel =
    filter (fun r => Substring (toLowerCase sel)
                       (toLowerCase (Backend.category r))) batch
  /\ Query.filteredRecipes batch' sel =
    filter (fun r => Substring (toLowerCase sel)
                       (toLowerCase (Query.category r))) batch'
  /\ (forall c, exactCategoryMatch sel c = true ->
                Substring (toLowerCase sel) (toLowerCase c))
  /\ (exists c, Substring (toLowerCase sel) (toLowerCase c) /\
                exactCategoryMatch sel c = false).
Proof.
  intros Hsel. apply not_All_eqb in Hsel.
  unfold Backend.filteredRecipes, Query.filteredRecipes. rewrite Hsel.
  repeat split.
  - apply filter_reflect. intros r. apply includes_spec.
  - apply filter_reflect. intros r. apply includes_spec.
  - apply exact_implies_substring.
  - exists (sel ++ " Breast"). apply substring_not_exact.
Qed.

End CategoryFilter.

Lemma category_filter_substring_policy_witness :
  "chicken"%string <> "All"%string /\
  Backend.filteredRecipes [Sample.dessert; Sample.chickenBreast] "chicken"
    = [Sample.chickenBreast] /\
  Query.filteredRecipes
    [Sample.recipe "1" "Italian"; Sample.recipe "2" "Thai"] "chicken" = [].
Proof.
  assert (H : "chicken"%string <> "All"%string) by discriminate.
  split; [exact H|].
  destruct (category_filter_substring_policy "chicken"
              [Sample.dessert; Sample.chickenBreast]
              [Sample.recipe "1" "Italian"; Sample.recipe "2" "Thai"] H)
    as (HB & HQ & _ & _).
  split.
  - rewrite HB. reflexivity.
  - rewrite HQ. reflexivity.
Defined.

(** ** The search handler *)

Section SearchHandler.

Import JS.
Local Open Scope string_scope.

Lemma searchRecipes_active (q : string)
  (o : FetchOutcome (list Backend.BackendRecipe)) (st : Backend.State) :
  truthy (trim q) = true ->
  Backend.searchRecipes q o st =
  Backend.setIsSearching false
    (match o with
     | Resolves true (Some searchResults) =>
         let st1 :=
           Backend.setRecipes searchResults
             (Backend.setError None (Backend.setIsSearching true st)) in
         if (length searchResults =? 0)%nat then
           Backend.setError (Some
             "No recipes found for your ingredients. Try different ingredients or check spelling.")
             st1
         else st1
     | _ =>
         Backend.setError (Some "Search failed. Please try again.")
           (Backend.setError None (Backend.setIsSearching true st))
     end).
Proof.
  intros Hq. unfold Backend.searchRecipes. rewrite Hq. cbn [negb].
  destruct o as [|[|] [rs|]]; reflexivity.
Qed.

(** C3.  During a search, a response that is [ok] with an empty array
    and a response that is not [ok] end in different states: the first
    replaces the recipes by the empty list and reports that nothing
    matched, the second leaves the recipes alone and reports that the
    search failed.  The branch is taken on the [ok] flag: a failed
    response whose body is an empty array is still a failure. *)
Theorem empty_result_distinct_from_failure
  (q : string) (st : Backend.State)
  (body : option (list Backend.BackendRecipe)) :
  truthy (trim q) = true ->
  let found_none := Backend.searchRecipes q (Resolves true (Some [])) st in
  let failed := Backend.searchRecipes q (Resolves false body) st in
  Backend.recipes found_none = [] /\
  Backend.error found_none =
    Some "No recipes found for your ingredients. Try different ingredients or check spelling." /\
  Backend.recipes failed = Backend.recipes st /\
  Backend.error failed = Some "Search failed. Please try again." /\
  found_none <> failed.
Proof.
  intros Hq found_none failed. subst found_none failed.
  rewrite !(searchRecipes_active q _ st Hq).
  repeat split; try (destruct body; reflexivity).
  intros H. apply (f_equal Backend.error) in H.
  destruct body; discriminate H.
Qed.

Lemma empty_result_distinct_from_failure_witness :
  truthy (trim "tofu") = true /\
  Backend.error
    (Backend.searchRecipes "tofu" (Resolves true (Some [])) Backend.initial)
  <> Backend.error
    (Backend.searchRecipes "tofu" (Resolves false (Some [])) Backend.initial).
Proof.
  assert (H : truthy (trim "tofu") = true) by reflexivity.
  split; [exact H|].
  destruct (empty_result_distinct_from_failure "tofu" Backend.initial
              (Some []) H) as (_ & E1 & _ & E2 & _).
  rewrite E1, E2. discriminate.
Defined.

(** A successful search with at least one result reports nothing. *)
Lemma search_with_results_no_error (q : string) (st : Backend.State)
  (r : Backend.BackendRecipe) (rs : list Backend.BackendRecipe) :
  truthy (trim q) = true ->
  Backend.error (Backend.searchRecipes q (Resolves true (Some (r :: rs))) st)
    = None.
Proof. intros Hq. rewrite (searchRecipes_active q _ st Hq). reflexivity. Qed.

End SearchHandler.

(** ** Display order *)

Section DisplayOrder.

Import JS.
Local Open Scope string_scope.

Lemma List_filter_sublist {A : Type} (f : A -> bool) (l : list A) :
  List.filter f l `sublist_of` l.
Proof.
  induction l as [|x l IH]; cbn [List.filter].
  - constructor.
  - destruct (f x); now constructor.
Qed.

Lemma Backend_filteredRecipes_sublist
  (rs : list Backend.BackendRecipe) (sel : string) :
  Backend.filteredRecipes rs sel `sublist_of` rs.
Proof.
  unfold Backend.filteredRecipes. destruct (String.eqb sel "All").
  - reflexivity.
  - apply List_filter_sublist.
Qed.

Lemma Query_filteredRecipes_sublist
  (rs : list Query.Recipe) (sel : string) :
  Query.filteredRecipes rs sel `sublist_of` rs.
Proof.
  unfold Query.filteredRecipes. destruct (String.eqb sel "All").
  - reflexivity.
  - apply List_filter_sublist.
Qed.

Lemma grid_keys (fl : Q -> Q) (q : string) (l : list Backend.BackendRecipe) :
  map fst (map (Backend.gridItem fl q) l) = map Backend.id l.
Proof. induction l as [|r l IH]; simpl; congruence. Qed.

Lemma search_sets_recipes (q : string) (rs : list Backend.BackendRecipe)
  (st : Backend.State) :
  let st' := Backend.searchRecipes q (Resolves true (Some rs)) st in
  Backend.recipes st' = rs /\
  Backend.selectedCategory st' = Backend.selectedCategory st.
Proof.
  unfold Backend.searchRecipes.
  destruct (negb (truthy (trim q))); [split; reflexivity|].
  destruct (length rs =? 0)%nat; split; reflexivity.
Qed.

(** C7.  After a search response, the grid shows the cards of the
    recipes that pass the category filter, in the order of the response:
    the displayed keys are a subsequence of the ids the server sent, so
    no two cards are ever exchanged, and with "All" selected they are
    the very same sequence.  The same holds for the react-query grid. *)
Theorem grid_keeps_server_order
  (fl : Q -> Q) (q : string) (rs : list Backend.BackendRecipe)
  (st : Backend.State) (rs' : list Query.Recipe) (sel : string) :
  let st' := Backend.searchRecipes q (Resolves true (Some rs)) st in
  Backend.grid fl q st' =
    map (Backend.gridItem fl q)
        (Backend.filteredRecipes rs (Backend.selectedCategory st)) /\
  Backend.filteredRecipes rs (Backend.selectedCategory st) `sublist_of` rs /\
  map fst (Backend.grid fl q st') `sublist_of` map Backend.id rs /\
  (Backend.selectedCategory st = "All" ->
     map fst (Backend.grid fl q st') = map Backend.id rs) /\
  map fst (Query.grid rs' sel) `sublist_of` map Query.id rs' /\
  (sel = "All" -> map fst (Query.grid rs' sel) = map Query.id rs').
Proof.
  intros st'. destruct (search_sets_recipes q rs st) as [Hr Hs].
  fold st' in Hr, Hs. unfold Backend.grid. rewrite Hr, Hs.
  split; [reflexivity|]. split; [apply Backend_filteredRecipes_sublist|].
  rewrite grid_keys. split.
  { apply fmap_sublist, Backend_filteredRecipes_sublist. }
  split.
  { intros ->. reflexivity. }
  unfold Query.grid. rewrite map_map. cbn [fst]. split.
  - apply (fmap_sublist Query.id), Query_filteredRecipes_sublist.
  - intros ->. reflexivity.
Qed.

Lemma grid_keeps_server_order_witness :
  map fst (Backend.grid (fun x => x) "chicken rice"
             (Backend.searchRecipes "chicken rice"
                (Resolves true (Some [Sample.dessert; Sample.chickenBreast]))
                (Backend.setSelectedCategory "All" Backend.initial)))
  = ["3"; "7"].
Proof.
  destruct (grid_keeps_server_order (fun x => x) "chicken rice"
              [Sample.dessert; Sample.chickenBreast]
              (Backend.setSelectedCategory "All" Backend.initial) [] "All")
    as (_ & _ & _ & H & _).
  rewrite H; reflexivity.
Defined.

End DisplayOrder.

(** ** The category bar *)

Section CategoryBar.

Local Open Scope string_scope.

(** C10.  The react-query grid shows "All" and then the first ten
    categories of the response, at most eleven buttons, whatever the
    length of the response; the grid with backend shows "All" and then
    every category of the response. *)
Theorem category_bar_cap (categoryData : list string) (st : Backend.State) :
  Query.allCategories categoryData = "All" :: take 10 categoryData /\
  Query.categoryButtons categoryData =
    match categoryData with
    | [] => []
    | _ => "All" :: take 10 categoryData
    end /\
  (length (Query.categoryButtons categoryData) <= 11)%nat /\
  Backend.categoryButtons
    (Backend.loadCategories (Resolves true (Some categoryData)) st)
    = "All" :: categoryData /\
  length (Backend.categoryButtons
            (Backend.loadCategories (Resolves true (Some categoryData)) st))
    = S (length categoryData).
Proof.
  split; [reflexivity|]. split.
  { destruct categoryData; reflexivity. }
  split.
  { unfold Query.categoryButtons, Query.allCategories.
    destruct (1 <? _)%nat; cbn [length]; [|lia].
    rewrite length_take. lia. }
  split; reflexivity.
Qed.

End CategoryBar.

(** ** The similarity badge *)

Section Badge.

Import JS.
Local Open Scope string_scope.
Local Open Scope Q_scope.

Lemma truthyNum_zero (s : Q) : s == 0 -> truthyNum s = false.
Proof.
  intros H. unfold truthyNum. apply Qeq_bool_iff in H. now rewrite H.
Qed.

Lemma truthyNum_nonzero (s : Q) : ~ s == 0 -> truthyNum s = true.
Proof.
  intros H. unfold truthyNum. destruct (Qeq_bool s 0) eqn:E; [|reflexivity].
  apply Qeq_bool_iff in E. contradiction.
Qed.

(** C8.  A recipe whose score is absent or zero gets
    [showSimilarityScore = false] from the grid whatever the search
    query, the card's guard yields no badge for it whatever the flag,
    and its grid item is the one of the same recipe without a score. *)
Theorem zero_score_shows_no_badge
  (fl : Q -> Q) (q : string) (r : Backend.BackendRecipe) :
  (Backend.similarityScore r = None \/
   exists s, Backend.similarityScore r = Some s /\ s == 0) ->
  Backend.showSimilarityScore q r = false /\
  (forall show className percent,
     Card.badgeSlot fl (Backend.convertToRecipeCardFormat r) show
       <> Card.Badge className percent) /\
  Card.v_badge (snd (Backend.gridItem fl q r)) = Card.Nothing /\
  Backend.gridItem fl q r = Backend.gridItem fl q (Backend.withoutScore r).
Proof.
  intros Hs.
  assert (Hshow : Backend.showSimilarityScore q r = false).
  { unfold Backend.showSimilarityScore.
    destruct Hs as [-> | (s & -> & Hz)].
    - apply andb_false_r.
    - rewrite (truthyNum_zero s Hz). apply andb_false_r. }
  split; [exact Hshow|]. split.
  { intros show className percent. unfold Card.badgeSlot.
    cbn [Backend.convertToRecipeCardFormat Card.similarityScore].
    destruct show; [|discriminate].
    destruct Hs as [-> | (s & -> & Hz)]; [discriminate|].
    rewrite (truthyNum_zero s Hz). discriminate. }
  unfold Backend.gridItem. rewrite Hshow. split; [reflexivity|].
  assert (Hshow' :
    Backend.showSimilarityScore q (Backend.withoutScore r) = false).
  { unfold Backend.showSimilarityScore. cbn. apply andb_false_r. }
  rewrite Hshow'. reflexivity.
Qed.

Lemma zero_score_shows_no_badge_witness :
  Card.v_badge (snd (Backend.gridItem (fun x => x) "chicken" Sample.unscored))
  = Card.Nothing.
Proof.
  refine (proj1 (proj2 (proj2
    (zero_score_shows_no_badge (fun x => x) "chicken" Sample.unscored _)))).
  right. exists 0. split; reflexivity.
Defined.

(** A score that is present and not zero does get its badge during a
    search. *)
Lemma nonzero_score_shows_badge
  (fl : Q -> Q) (q : string) (r : Backend.BackendRecipe) (s : Q) :
  truthy (trim q) = true ->
  Backend.similarityScore r = Some s -> ~ s == 0 ->
  Card.v_badge (snd (Backend.gridItem fl q r)) =
  Card.Badge (Card.getSimilarityColor fl s) (Card.formatSimilarityScore fl s).
Proof.
  intros Hq Hr Hs. unfold Backend.gridItem, Backend.showSimilarityScore.
  rewrite Hq, Hr, (truthyNum_nonzero s Hs). cbn.
  rewrite Hr, (truthyNum_nonzero s Hs). reflexivity.
Qed.

(** [Math.round] gives the nearest integer, a tie going up. *)
Lemma Math_round_nearest (x : Q) :
  inject_Z (Math_round x) - (1 # 2) <= x /\
  x < inject_Z (Math_round x) + (1 # 2).
Proof.
  unfold Math_round.
  pose proof (Qfloor_le (x + (1 # 2))) as Hlo.
  pose proof (Qlt_floor (x + (1 # 2))) as Hhi.
  rewrite inject_Z_plus in Hhi. change (inject_Z 1) with 1%Q in Hhi.
  split; lra.
Qed.

Lemma Math_round_monotone (x y : Q) :
  x <= y -> (Math_round x <= Math_round y)%Z.
Proof. intros H. apply Qfloor_resp_le. lra. Qed.

(** The rounding of the double arithmetic: monotone, and exact on the
    two numbers 0 and 100, which are doubles. *)
Variable fl : Q -> Q.
Hypothesis fl_monotone : forall x y, x <= y -> fl x <= fl y.
Hypothesis fl_0 : fl 0 == 0.
Hypothesis fl_100 : fl 100 == 100.

Lemma percentage_range (s : Q) :
  0 <= s <= 1 -> 0 <= fl (s * 100) <= 100.
Proof.
  intros [H0 H1].
  assert (Hlo : fl 0 <= fl (s * 100)) by (apply fl_monotone; lra).
  assert (Hhi : fl (s * 100) <= fl 100) by (apply fl_monotone; lra).
  split; lra.
Qed.

(** C9.  For a score between 0 and 1 the badge shows
    [Math.round(score * 100)], an integer between 0 and 100 that is
    nearest to the percentage, and its colour is green from 80, yellow
    from 60, orange from 40 and red below. *)
Theorem badge_text_and_colour (s : Q) :
  0 <= s <= 1 ->
  let percentage := fl (s * 100) in
  Card.formatSimilarityScore fl s = Math_round percentage /\
  (0 <= Card.formatSimilarityScore fl s <= 100)%Z /\
  (inject_Z (Card.formatSimilarityScore fl s) - (1 # 2) <= percentage /\
   percentage < inject_Z (Card.formatSimilarityScore fl s) + (1 # 2)) /\
  (80 <= percentage ->
     Card.getSimilarityColor fl s = "text-green-400 bg-green-500/20") /\
  (60 <= percentage -> percentage < 80 ->
     Card.getSimilarityColor fl s = "text-yellow-400 bg-yellow-500/20") /\
  (40 <= percentage -> percentage < 60 ->
     Card.getSimilarityColor fl s = "text-orange-400 bg-orange-500/20") /\
  (percentage < 40 ->
     Card.getSimilarityColor fl s = "text-red-400 bg-red-500/20").
Proof.
  intros Hs percentage.
  pose proof (percentage_range s Hs) as [Hlo Hhi]. fold percentage in Hlo, Hhi.
  assert (Hle : forall k, Qle_bool k percentage = true <-> k <= percentage)
    by (intros k; apply Qle_bool_iff).
  assert (Hnle : forall k, percentage < k -> Qle_bool k percentage = false).
  { intros k Hk. destruct (Qle_bool k percentage) eqn:E; [|reflexivity].
    apply Hle in E. lra. }
  split; [reflexivity|]. split.
  { unfold Card.formatSimilarityScore. fold percentage. split.
    - change 0%Z with (Math_round 0). now apply Math_round_monotone.
    - change 100%Z with (Math_round 100). now apply Math_round_monotone. }
  split; [apply Math_round_nearest|].
  unfold Card.getSimilarityColor. fold percentage.
  repeat split.
  - intros H80. apply Hle in H80. now rewrite H80.
  - intros H60 H80. apply Hle in H60. now rewrite (Hnle 80 H80), H60.
  - intros H40 H60. apply Hle in H40.
    rewrite (Hnle 80) by lra. now rewrite (Hnle 60 H60), H40.
  - intros H40. rewrite (Hnle 80) by lra. rewrite (Hnle 60) by lra.
    now rewrite (Hnle 40 H40).
Qed.

End Badge.

Lemma badge_text_and_colour_witness :
  (0 <= 62 # 100 <= 1)%Q /\
  Card.formatSimilarityScore (fun x => x) (62 # 100) = 62%Z /\
  Card.getSimilarityColor (fun x => x) (62 # 100)
    = "text-yellow-400 bg-yellow-500/20"%string.
Proof.
  assert (Hs : (0 <= 62 # 100 <= 1)%Q) by (split; discriminate).
  split; [exact Hs|].
  destruct (badge_text_and_colour (fun x => x)
              (fun x y H => H) (Qeq_refl 0) (Qeq_refl 100) (62 # 100) Hs)
    as (Htext & _ & _ & _ & Hyellow & _).
  split.
  - rewrite Htext. reflexivity.
  - apply Hyellow; [discriminate | reflexivity].
Defined.

(** ** The search request *)

Section SearchRequest.

Import JS.
Local Open Scope string_scope.

(** The characters of a string. *)
Local Abbreviation chars := list_ascii_of_string.

Lemma not_separator_not_space (c : ascii) :
  isSeparator c = false -> isWhiteSpace c = false.
Proof. unfold isSeparator. intros H. now apply orb_false_iff in H. Qed.

Lemma trimStart_blank (s : string) :
  (forall c, In c (chars s) -> isWhiteSpace c = true) -> trimStart s = "".
Proof.
  induction s as [|c s IH]; intros H; [reflexivity|]. simpl.
  rewrite (H c) by (left; reflexivity). apply IH.
  intros d Hd. apply H. right. exact Hd.
Qed.

Lemma trimStart_keeps (s : string) (c : ascii) :
  In c (chars s) -> isWhiteSpace c = false ->
  exists d, In d (chars (trimStart s)) /\ isWhiteSpace d = false.
Proof.
  induction s as [|a s IH]; intros Hin Hc; [destruct Hin|].
  simpl. destruct (isWhiteSpace a) eqn:Ea.
  - destruct Hin as [->|Hin]; [congruence|]. now apply IH.
  - exists a. split; [left; reflexivity | exact Ea].
Qed.

Lemma trimEnd_blank (s : string) :
  trimEnd s = "" -> forall c, In c (chars s) -> isWhiteSpace c = true.
Proof.
  induction s as [|a s IH]; intros H c Hin; [destruct Hin|].
  simpl in H. destruct (trimEnd s) eqn:E; [|discriminate].
  destruct (isWhiteSpace a) eqn:Ea; [|discriminate].
  destruct Hin as [<-|Hin]; [exact Ea | now apply IH].
Qed.

(** [!searchQuery.trim()] holds exactly for the queries made of white
    space only. *)
Lemma trim_truthy_iff (q : string) :
  truthy (trim q) = true <->
  exists c, In c (chars q) /\ isWhiteSpace c = false.
Proof.
  split.
  - intros H.
    destruct (forallb isWhiteSpace (chars q)) eqn:E.
    + rewrite forallb_forall in E. unfold trim in H.
      rewrite (trimStart_blank q E) in H. discriminate H.
    + clear H. induction q as [|a q IH]; [discriminate|].
      simpl in E. destruct (isWhiteSpace a) eqn:Ea.
      * destruct (IH E) as (c & Hc & Hw). exists c. split; [right|]; assumption.
      * exists a. split; [left; reflexivity | exact Ea].
  - intros (c & Hin & Hc).
    destruct (trimStart_keeps q c Hin Hc) as (d & Hd & Hw).
    unfold trim. destruct (trimEnd (trimStart q)) eqn:E; [|reflexivity].
    rewrite (trimEnd_blank _ E d Hd) in Hw. discriminate.
Qed.

Lemma trim_NoSeparator (s : string) : NoSeparator s -> trim s = s.
Proof.
  intros H. unfold trim.
  assert (Hs : trimStart s = s).
  { destruct s as [|a s]; [reflexivity|]. simpl.
    now rewrite (not_separator_not_space a (H a (or_introl eq_refl))). }
  rewrite Hs. clear Hs. induction s as [|a s IH]; [reflexivity|].
  simpl. rewrite IH by (intros c Hc; apply H; right; exact Hc).
  destruct s; [|reflexivity].
  now rewrite (not_separator_not_space a (H a (or_introl eq_refl))).
Qed.

Lemma chars_of_rev (cur : list ascii) :
  chars (string_of_list_ascii (rev cur)) = rev cur.
Proof. apply list_ascii_of_string_of_list_ascii. Qed.

(** Every piece of a split is free of separators. *)
Lemma splitFrom_pieces (s : string) (cur : list ascii) (inSep : bool) :
  (forall c, In c cur -> isSeparator c = false) ->
  forall piece, In piece (splitFrom cur inSep s) -> NoSeparator piece.
Proof.
  revert cur inSep. induction s as [|a s IH]; intros cur inSep Hcur piece Hin.
  - destruct Hin as [<-|[]]. intros c Hc. rewrite chars_of_rev in Hc.
    apply Hcur. now apply in_rev.
  - simpl in Hin. destruct (isSeparator a) eqn:Ea.
    + destruct inSep.
      * now apply (IH cur true).
      * destruct Hin as [<-|Hin].
        -- intros c Hc. rewrite chars_of_rev in Hc.
           apply Hcur. now apply in_rev.
        -- apply (IH [] true); [intros c []| exact Hin].
    + apply (IH (a :: cur) false); [|exact Hin].
      intros c [<-|Hc]; [exact Ea | now apply Hcur].
Qed.

(** A character that is not a separator ends up in a piece. *)
Lemma splitFrom_nonempty (s : string) (cur : list ascii) (inSep : bool) :
  cur <> [] \/ (exists c, In c (chars s) /\ isSeparator c = false) ->
  exists piece, In piece (splitFrom cur inSep s) /\ piece <> "".
Proof.
  revert cur inSep. induction s as [|a s IH]; intros cur inSep H.
  - destruct H as [Hcur | (c & [] & _)].
    exists (string_of_list_ascii (rev cur)). split; [left; reflexivity|].
    intros E. apply (f_equal chars) in E. rewrite chars_of_rev in E.
    simpl in E. apply (f_equal (@rev ascii)) in E. rewrite rev_involutive in E.
    now apply Hcur.
  - simpl. destruct (isSeparator a) eqn:Ea.
    + destruct cur as [|b cur].
      * destruct H as [Hcur | (c & [->|Hc] & Hs)];
          [now elim Hcur | congruence |].
        destruct (IH [] true) as (piece & Hin & Hne).
        { right. now exists c. }
        exists piece. split; [|exact Hne].
        destruct inSep; [exact Hin | right; exact Hin].
      * destruct inSep.
        -- destruct (IH (b :: cur) true) as (piece & Hin & Hne);
             [left; discriminate|].
           now exists piece.
        -- exists (string_of_list_ascii (rev (b :: cur))).
           split; [left; reflexivity|].
           intros E. apply (f_equal chars) in E. rewrite chars_of_rev in E.
           simpl in E. now destruct (rev cur).
    + destruct (IH (a :: cur) false) as (piece & Hin & Hne);
        [left; discriminate|].
      now exists piece.
Qed.

Lemma nonempty_length (s : string) :
  s <> "" <-> (0 <? String.length s)%nat = true.
Proof.
  destruct s; simpl; split; intros H;
    try reflexivity; try discriminate; now elim H.
Qed.

(** The ingredients of a search request never contain the empty string
    nor a separator. *)
Lemma ingredientsOf_elements (q ing : string) :
  In ing (Backend.ingredientsOf q) -> ing <> "" /\ NoSeparator ing.
Proof.
  unfold Backend.ingredientsOf. intros H. apply filter_In in H as [Hin Hlen].
  assert (Hns : NoSeparator ing).
  { apply (splitFrom_pieces q [] false); [intros c []| exact Hin]. }
  split; [|exact Hns].
  rewrite (trim_NoSeparator ing Hns) in Hlen. now apply nonempty_length.
Qed.

(** A query with a character that is neither white space nor a comma
    has at least one ingredient. *)
Lemma ingredientsOf_nonempty (q : string) :
  (exists c, In c (chars q) /\ isSeparator c = false) ->
  Backend.ingredientsOf q <> [].
Proof.
  intros H.
  destruct (splitFrom_nonempty q [] false (or_intror H)) as (piece & Hin & Hne).
  assert (Hns : NoSeparator piece).
  { apply (splitFrom_pieces q [] false); [intros c []| exact Hin]. }
  assert (Hf : In piece (Backend.ingredientsOf q)).
  { unfold Backend.ingredientsOf. apply filter_In. split; [exact Hin|].
    rewrite (trim_NoSeparator piece Hns). now apply nonempty_length. }
  intros E. rewrite E in Hf. destruct Hf.
Qed.

(** A query of white space only sends no search: the handler asks for
    random recipes instead. *)
Lemma blank_query_no_search (q : string) :
  (forall c, In c (chars q) -> isWhiteSpace c = true) ->
  Backend.searchRecipes_request q = GET "/api/recipes/random?count=50".
Proof.
  intros H. unfold Backend.searchRecipes_request, trim.
  now rewrite (trimStart_blank q H).
Qed.

(** What does hold of the search request: a query with a character that
    is neither white space nor a comma is posted with [top_n = 12] and a
    non-empty list of non-empty ingredients. *)
Lemma search_request_wellformed (q : string) :
  (exists c, In c (chars q) /\ isSeparator c = false) ->
  Backend.searchRecipes_request q =
    POST "/api/recipes/search"
      {| body_ingredients := Backend.ingredientsOf q; body_top_n := 12 |} /\
  Backend.ingredientsOf q <> [] /\
  Forall (fun ing => ing <> "") (Backend.ingredientsOf q).
Proof.
  intros H. split; [|split].
  - unfold Backend.searchRecipes_request.
    assert (Ht : truthy (trim q) = true).
    { apply trim_truthy_iff. destruct H as (c & Hin & Hs).
      exists c. split; [exact Hin | now apply not_separator_not_space]. }
    now rewrite Ht.
  - now apply ingredientsOf_nonempty.
  - apply List.Forall_forall. intros ing Hin.
    now apply (ingredientsOf_elements q).
Qed.

(** The react-query grid posts a search only with a non-empty list of
    non-empty ingredients. *)
Lemma Query_search_wellformed (q url : string) (body : SearchBody) :
  In (POST url body) (Query.requests q) ->
  url = "/api/recipes/search" /\ body_top_n body = 12%Z /\
  body_ingredients body <> [] /\
  Forall (fun ing => ing <> "") (body_ingredients body).
Proof.
  unfold Query.requests, Query.recipes_request. cbn [length Nat.ltb Nat.leb].
  intros [H|[H|[H|[]]]]; try discriminate H.
  destruct (Query.searchIngredients q) as [|i l] eqn:E; [discriminate H|].
  cbn in H. injection H as <- <-. cbn [body_top_n body_ingredients].
  repeat split; [discriminate|].
  rewrite <- E. unfold Query.searchIngredients.
  destruct (truthy (trim q)); [|constructor].
  apply List.Forall_forall. intros ing Hin. apply filter_In in Hin as [_ Hl].
  now apply nonempty_length.
Qed.

(** C4.  The query made of one comma contains a character that is not
    white space, yet [RecipeGridWithBackend] posts it to the search
    endpoint with an empty [ingredients] array; [RecipeGrid] sends no
    search for the same query. *)
Theorem comma_query_posts_no_ingredients :
  (exists c, In c (chars ",") /\ isWhiteSpace c = false) /\
  truthy (trim ",") = true /\
  Backend.searchRecipes_request "," =
    POST "/api/recipes/search"
      {| body_ingredients := []; body_top_n := 12 |} /\
  Query.requests "," =
    [GET "/api/recipes/categories"; GET "/api/recipes"; GET "/api/recipes"].
Proof.
  split.
  - exists ","%char. split; [left; reflexivity | reflexivity].
  - repeat split; reflexivity.
Qed.

End SearchRequest.

(** ** The endpoints the client requests *)

Section Endpoints.

Import JS.
Local Open Scope string_scope.

Local Abbreviation chars := list_ascii_of_string.

Lemma encodeChar_plain (c : ascii) :
  forallb plain (chars (encodeChar c)) = true /\ encodeChar c <> "".
Proof.
  destruct c as [[] [] [] [] [] [] [] []]; split;
    solve [vm_compute; reflexivity | discriminate].
Qed.

Lemma chars_app (s t : string) : chars (s ++ t) = (chars s ++ chars t)%list.
Proof. induction s as [|c s IH]; simpl; congruence. Qed.

Lemma encodeURIComponent_plain (s : string) :
  forallb plain (chars (encodeURIComponent s)) = true.
Proof.
  induction s as [|c s IH]; [reflexivity|]. simpl.
  rewrite chars_app, forallb_app, IH.
  now rewrite (proj1 (encodeChar_plain c)).
Qed.

Lemma encodeURIComponent_truthy (s : string) :
  truthy s = true -> truthy (encodeURIComponent s) = true.
Proof.
  destruct s as [|c s]; [discriminate|]. intros _. simpl.
  pose proof (proj2 (encodeChar_plain c)) as H.
  destruct (encodeChar c); [now elim H | reflexivity].
Qed.

Lemma pathOf_no_query (s : string) :
  forallb (fun c => negb (nat_of_ascii c =? 63)%nat) (chars s) = true ->
  pathOf s = s.
Proof.
  induction s as [|c s IH]; [reflexivity|]. simpl.
  intros H. apply andb_true_iff in H as [Hc Hs].
  apply negb_true_iff in Hc. rewrite Hc. now rewrite IH.
Qed.

Lemma plain_no_query (l : list ascii) :
  forallb plain l = true ->
  forallb (fun c => negb (nat_of_ascii c =? 63)%nat) l = true.
Proof.
  rewrite !forallb_forall. intros H c Hc. specialize (H c Hc).
  unfold plain in H. now apply andb_true_iff in H as [_ H].
Qed.

Lemma plain_segment (s : string) :
  truthy s = true -> forallb plain (chars s) = true -> isSegment s = true.
Proof.
  intros Ht Hp. unfold isSegment. rewrite Ht. cbn [andb].
  apply forallb_forall. intros c Hc.
  rewrite forallb_forall in Hp. specialize (Hp c Hc).
  unfold plain in Hp. now apply andb_true_iff in Hp as [Hp _].
Qed.

Lemma by_category_endpoint (sel : string) :
  truthy sel = true ->
  endpointOf (GET ("/api/recipes/by-category/" ++ encodeURIComponent sel))
    = Some EpByCategory.
Proof.
  intros Ht. pose proof (encodeURIComponent_plain sel) as Hp.
  pose proof (encodeURIComponent_truthy sel Ht) as Hn.
  unfold endpointOf.
  rewrite pathOf_no_query
    by (rewrite chars_app, forallb_app, (plain_no_query _ Hp);
        vm_compute; reflexivity).
  cbn -[encodeURIComponent isSegment].
  now rewrite (plain_segment _ Hn Hp).
Qed.

Lemma loadRecipes_endpoint (sel : string) :
  endpointOf (Backend.loadRecipes_request sel) = Some EpRandom \/
  endpointOf (Backend.loadRecipes_request sel) = Some EpByCategory.
Proof.
  unfold Backend.loadRecipes_request.
  destruct (String.eqb sel "All"); [left; reflexivity|].
  destruct (truthy sel) eqn:Ht; [|left; reflexivity].
  right. now apply by_category_endpoint.
Qed.

Lemma searchRecipes_endpoint (q : string) :
  endpointOf (Backend.searchRecipes_request q) = Some EpRandom \/
  endpointOf (Backend.searchRecipes_request q) = Some EpSearch.
Proof.
  unfold Backend.searchRecipes_request.
  destruct (negb (truthy (trim q))); [left | right]; reflexivity.
Qed.

(** C5, as the code has it.  Every request of [RecipeGridWithBackend]
    targets the search, random, by-category or categories endpoint;
    every request of [RecipeGrid] targets the search or categories
    endpoint or is [GET /api/recipes].  The health endpoint is never
    requested. *)
Theorem client_requests_endpoints (q sel : string) (r : Request) :
  (In r (Backend.requests q sel) -> requested (endpointOf r)) /\
  (In r (Query.requests q) ->
     endpointOf r = Some EpSearch \/ endpointOf r = Some EpCategories \/
     r = GET "/api/recipes").
Proof.
  unfold requested. split.
  - unfold Backend.requests. intros H. apply in_app_or in H as [H|H].
    + destruct H as [<-|[<-|[<-|[]]]]; [tauto | tauto |].
      destruct (searchRecipes_endpoint q) as [-> | ->]; tauto.
    + destruct (negb (truthy (trim q))); [|destruct H].
      destruct H as [<-|[]].
      destruct (loadRecipes_endpoint sel) as [-> | ->]; tauto.
  - unfold Query.requests, Query.recipes_request.
    intros [<-|[<-|[<-|[]]]]; [tauto | tauto |].
    destruct (0 <? _)%nat; [left; reflexivity | tauto].
Qed.

Lemma client_requests_endpoints_witness :
  requested (endpointOf (GET "/api/recipes/by-category/Chicken%20Breast")).
Proof.
  refine (proj1 (client_requests_endpoints "" "Chicken Breast"
                   (GET "/api/recipes/by-category/Chicken%20Breast")) _).
  right. right. right. left. reflexivity.
Defined.

(** C5 as stated fails: on mount, [RecipeGrid] requests [/api/recipes],
    which is none of the five endpoints. *)
Lemma recipes_request_not_listed :
  In (GET "/api/recipes") (Query.requests "") /\
  endpointOf (GET "/api/recipes") = None.
Proof. split; [right; left; reflexivity | reflexivity]. Qed.

End Endpoints.

(** ** The ranking contract *)

Section Scores.

Import Engine.
Local Open Scope R_scope.

Lemma dot_empty (v : gmap nat R) : dot ∅ v = 0.
Proof. unfold dot. now rewrite map_fold_empty. Qed.

Lemma dot_insert (q v : gmap nat R) (i : nat) (x : R) :
  q !! i = None -> dot (<[i:=x]> q) v = x * weight v i + dot q v.
Proof.
  intros Hi. unfold dot. rewrite map_fold_insert_L; [reflexivity| |exact Hi].
  intros. lra.
Qed.

Lemma norm2_empty : norm2 ∅ = 0.
Proof. unfold norm2. now rewrite map_fold_empty. Qed.

Lemma norm2_insert (v : gmap nat R) (i : nat) (x : R) :
  v !! i = None -> norm2 (<[i:=x]> v) = x * x + norm2 v.
Proof.
  intros Hi. unfold norm2. rewrite map_fold_insert_L; [reflexivity| |exact Hi].
  intros. lra.
Qed.

Lemma norm2_nonneg (v : gmap nat R) : 0 <= norm2 v.
Proof.
  induction v as [|i x v Hi IH] using map_ind.
  - rewrite norm2_empty. lra.
  - rewrite (norm2_insert v i x Hi). nra.
Qed.

(** Removing an index takes the square of its weight off the norm. *)
Lemma norm2_delete (v : gmap nat R) (i : nat) :
  norm2 v = weight v i * weight v i + norm2 (delete i v).
Proof.
  unfold weight. destruct (v !! i) as [x|] eqn:E; cbn [default].
  - rewrite <- (insert_delete_id v i x E) at 1.
    rewrite norm2_insert; [reflexivity | apply lookup_delete_eq].
  - rewrite (delete_id v i E). lra.
Qed.

(** The score only reads the recipe vector at the indices of the query. *)
Lemma dot_ext (q v v' : gmap nat R) :
  (forall i, is_Some (q !! i) -> weight v i = weight v' i) ->
  dot q v = dot q v'.
Proof.
  induction q as [|i x q Hi IH] using map_ind; intros H.
  - now rewrite !dot_empty.
  - rewrite !(dot_insert q _ i x Hi).
    rewrite (H i) by (rewrite lookup_insert_eq; eauto).
    rewrite IH; [reflexivity|].
    intros j Hj. apply H. rewrite lookup_insert_ne; [exact Hj|].
    intros ->. rewrite Hi in Hj. now destruct Hj.
Qed.

Lemma weight_delete_ne (v : gmap nat R) (i j : nat) :
  i <> j -> weight (delete i v) j = weight v j.
Proof. intros H. unfold weight. now rewrite lookup_delete_ne. Qed.

(** Twice the score is at most the sum of the squared norms. *)
Lemma dot_le_norms (q v : gmap nat R) :
  2 * dot q v <= norm2 q + norm2 v.
Proof.
  revert v. induction q as [|i x q Hi IH] using map_ind; intros v.
  - rewrite dot_empty, norm2_empty. pose proof (norm2_nonneg v). lra.
  - rewrite (dot_insert q v i x Hi), (norm2_insert q i x Hi).
    rewrite (norm2_delete v i).
    rewrite (dot_ext q v (delete i v)).
    + specialize (IH (delete i v)).
      pose proof (Rle_0_sqr (x - weight v i)) as Hsq. unfold Rsqr in Hsq.
      lra.
    + intros j Hj. symmetry. apply weight_delete_ne.
      intros ->. rewrite Hi in Hj. now destruct Hj.
Qed.

Lemma weight_nonneg (v : gmap nat R) (i : nat) :
  map_Forall (fun _ w => 0 <= w) v -> 0 <= weight v i.
Proof.
  intros H. unfold weight. destruct (v !! i) as [x|] eqn:E; cbn [default].
  - exact (H i x E).
  - lra.
Qed.

Lemma dot_nonneg (q v : gmap nat R) :
  map_Forall (fun _ w => 0 <= w) q -> map_Forall (fun _ w => 0 <= w) v ->
  0 <= dot q v.
Proof.
  intros Hq Hv. induction q as [|i x q Hi IH] using map_ind.
  - rewrite dot_empty. lra.
  - rewrite (dot_insert q v i x Hi).
    apply map_Forall_insert in Hq as [Hx Hq]; [|exact Hi].
    specialize (IH Hq). pose proof (weight_nonneg v i Hv). nra.
Qed.

(** The cosine similarity of two well-formed vectors is within [0, 1]. *)
Lemma dot_range (q v : gmap nat R) :
  wf_vector q -> wf_vector v -> 0 <= dot q v <= 1.
Proof.
  intros [Hq Nq] [Hv Nv]. split; [now apply dot_nonneg|].
  pose proof (dot_le_norms q v). destruct Nq, Nv; lra.
Qed.

End Scores.

Section Order.

Import Engine.
Local Open Scope R_scope.

Lemma string_leb_trans (a b c : string) :
  String.leb a b = true -> String.leb b c = true -> String.leb a c = true.
Proof.
  unfold String.leb. revert b c.
  induction a as [|x a IH]; intros [|y b] [|z c]; simpl;
    try reflexivity; try discriminate.
  unfold Ascii.compare.
  destruct (N.compare_spec (N_of_ascii x) (N_of_ascii y)) as [Hxy|Hxy|Hxy];
  destruct (N.compare_spec (N_of_ascii y) (N_of_ascii z)) as [Hyz|Hyz|Hyz];
  destruct (N.compare_spec (N_of_ascii x) (N_of_ascii z)) as [Hxz|Hxz|Hxz];
    try easy; try lia.
  apply IH.
Qed.

Lemma before_spec (idx : Index) (a b : string * R) :
  before idx a b = true <-> RankedBefore idx a b.
Proof.
  unfold before, RankedBefore.
  destruct (Rlt_dec b.2 a.2) as [H1|H1]; [split; [now left | reflexivity]|].
  destruct (Rlt_dec a.2 b.2) as [H2|H2].
  { split; [discriminate|]. intros [H|[H _]]; lra. }
  destruct (Rlt_dec (ratingOf idx b.1) (ratingOf idx a.1)) as [H3|H3].
  { split; [|reflexivity]. intros _. right. split; [lra | now left]. }
  destruct (Rlt_dec (ratingOf idx a.1) (ratingOf idx b.1)) as [H4|H4].
  { split; [discriminate|]. intros [H|[_ [H|[H _]]]]; lra. }
  split.
  - intros H. right. split; [lra|]. right. split; [lra | exact H].
  - intros [H|[_ [H|[_ H]]]]; [lra | lra | exact H].
Qed.

Lemma RankedBefore_total (idx : Index) (a b : string * R) :
  RankedBefore idx a b \/ RankedBefore idx b a.
Proof.
  unfold RankedBefore.
  destruct (Rtotal_order a.2 b.2) as [H|[H|H]];
    [right; left; lra | | left; left; lra].
  destruct (Rtotal_order (ratingOf idx a.1) (ratingOf idx b.1)) as [G|[G|G]].
  - right. right. split; [now symmetry | left; lra].
  - destruct (String.leb_total a.1 b.1) as [L|L].
    + left. right. split; [exact H|]. right. now split.
    + right. right. split; [now symmetry|]. right. split; [now symmetry | exact L].
  - left. right. split; [exact H | left; lra].
Qed.

Lemma RankedBefore_trans (idx : Index) (a b c : string * R) :
  RankedBefore idx a b -> RankedBefore idx b c -> RankedBefore idx a c.
Proof.
  unfold RankedBefore.
  intros [H1|[E1 [R1|[Q1 L1]]]] [H2|[E2 [R2|[Q2 L2]]]];
    try (left; lra); right; (split; [congruence|]);
    try (left; lra).
  right. split; [congruence|]. now apply (string_leb_trans a.1 b.1 c.1).
Qed.

Lemma not_before (idx : Index) (a b : string * R) :
  before idx a b = false -> RankedBefore idx b a.
Proof.
  intros H. destruct (RankedBefore_total idx a b) as [T|T]; [|exact T].
  apply before_spec in T. congruence.
Qed.

Lemma insertRanked_perm (idx : Index) (x : string * R)
  (l : list (string * R)) :
  insertRanked idx x l ≡ₚ x :: l.
Proof.
  induction l as [|y l IH]; cbn [insertRanked]; [reflexivity|].
  destruct (before idx x y); [reflexivity|].
  rewrite IH. apply Permutation_swap.
Qed.

Lemma sortRanked_perm (idx : Index) (l : list (string * R)) :
  sortRanked idx l ≡ₚ l.
Proof.
  induction l as [|x l IH]; cbn [sortRanked]; [reflexivity|].
  now rewrite insertRanked_perm, IH.
Qed.

Lemma insertRanked_sorted (idx : Index) (x : string * R)
  (l : list (string * R)) :
  StronglySorted (RankedBefore idx) l ->
  StronglySorted (RankedBefore idx) (insertRanked idx x l).
Proof.
  induction 1 as [|y l Hl IH Hy]; cbn [insertRanked].
  - constructor; constructor.
  - destruct (before idx x y) eqn:E.
    + apply before_spec in E. constructor.
      * now constructor.
      * constructor; [exact E|].
        eapply Forall_impl; [exact Hy|].
        intros z Hz. now apply (RankedBefore_trans idx x y z).
    + constructor; [exact IH|].
      rewrite insertRanked_perm. constructor; [|exact Hy].
      now apply not_before.
Qed.

Lemma sortRanked_sorted (idx : Index) (l : list (string * R)) :
  StronglySorted (RankedBefore idx) (sortRanked idx l).
Proof.
  induction l as [|x l IH]; cbn [sortRanked].
  - constructor.
  - now apply insertRanked_sorted.
Qed.

Lemma StronglySorted_take {A : Type} (R : A -> A -> Prop) (n : nat)
  (l : list A) :
  StronglySorted R l -> StronglySorted R (take n l).
Proof.
  intros H. revert n. induction H as [|x l Hl IH Hx]; intros [|n]; cbn.
  - constructor.
  - constructor.
  - constructor.
  - constructor; [apply IH | now apply Forall_take].
Qed.

End Order.

Section Ranker.

Import Engine.
Local Open Scope R_scope.

Lemma scoreAll_elem (q : gmap nat R) (idx : Index) (p : string * R) :
  p ∈ scoreAll q idx ->
  exists v, vectors idx !! p.1 = Some v /\ p.2 = dot q v.
Proof.
  unfold scoreAll. intros H. apply list_elem_of_fmap in H as ([id v] & -> & H).
  apply elem_of_map_to_list in H. now exists v.
Qed.

Lemma scoreAll_range (q : gmap nat R) (idx : Index) :
  wf_vector q -> wf_index idx ->
  Forall (fun p : string * R => 0 <= p.2 <= 1) (scoreAll q idx).
Proof.
  intros Hq [_ Hidx]. apply Forall_forall. intros p Hp.
  destruct (scoreAll_elem q idx p Hp) as (v & Hv & ->).
  apply dot_range; [exact Hq | exact (Hidx _ _ Hv)].
Qed.

Lemma scoreAll_length (q : gmap nat R) (idx : Index) :
  length (scoreAll q idx) = corpusSize idx.
Proof.
  unfold scoreAll, corpusSize. now rewrite length_fmap, length_map_to_list.
Qed.

(** What [rank] returns for a positive [topN]. *)
Lemma rank_positive (q : gmap nat R) (idx : Index) (topN : Z) :
  (0 < topN)%Z ->
  rank q idx topN =
  inr (if forallb (fun p : string * R => bool_decide (p.2 = 0))
            (scoreAll q idx)
       then []
       else take (clamp idx topN) (sortRanked idx (scoreAll q idx))).
Proof.
  intros H. unfold rank.
  destruct (Z.leb_spec topN 0) as [Hle|_]; [lia|].
  now destruct (forallb _ _).
Qed.

Lemma rank_nonpositive (q : gmap nat R) (idx : Index) (topN : Z) :
  (topN <= 0)%Z -> rank q idx topN = inl InvalidArgument.
Proof.
  intros H. unfold rank. now destruct (Z.leb_spec topN 0) as [_|Hlt]; [|lia].
Qed.

(** C2.  Whatever the query vector, the Index and [topN], provided the
    vectors are well formed: [rank] fails only for [topN <= 0], and the
    sequence it returns otherwise is sorted by score descending, then
    rating descending, then id ascending; every entry is a recipe of
    the Index with its score, which lies between 0 and 1. *)
Theorem rank_sorted_and_bounded
  (q : gmap nat R) (idx : Index) (topN : Z) :
  wf_vector q -> wf_index idx ->
  match rank q idx topN with
  | inl e => e = InvalidArgument /\ (topN <= 0)%Z
  | inr ranked =>
      (0 < topN)%Z /\
      StronglySorted (RankedBefore idx) ranked /\
      Forall (fun p : string * R => 0 <= p.2 <= 1) ranked /\
      Forall (fun p : string * R =>
                exists v, vectors idx !! p.1 = Some v /\ p.2 = dot q v)
             ranked
  end.
Proof.
  intros Hq Hidx. destruct (Z.le_gt_cases topN 0) as [Hle|Hgt].
  { rewrite (rank_nonpositive q idx topN Hle). now split. }
  rewrite (rank_positive q idx topN Hgt).
  split; [exact Hgt|].
  destruct (forallb _ _).
  { repeat split; constructor. }
  assert (Hperm : sortRanked idx (scoreAll q idx) ≡ₚ scoreAll q idx)
    by apply sortRanked_perm.
  split; [|split].
  - apply StronglySorted_take, sortRanked_sorted.
  - apply Forall_take. rewrite Hperm. now apply scoreAll_range.
  - apply Forall_take. rewrite Hperm. apply Forall_forall.
    intros p Hp. now apply scoreAll_elem.
Qed.

End Ranker.

Section SampleCorpus.

Import Engine.
Local Open Scope R_scope.

Lemma query_wf : wf_vector Corpus.query.
Proof.
  unfold Corpus.query. split.
  - apply map_Forall_insert_2; [lra | apply map_Forall_empty].
  - left. rewrite norm2_insert by apply lookup_empty.
    rewrite norm2_empty. lra.
Qed.

Lemma unknownTokens_wf (lines : list string) :
  wf_vector (Corpus.unknownTokens lines).
Proof.
  split; [apply map_Forall_empty | right; apply norm2_empty].
Qed.

Lemma vectorA_wf : wf_vector Corpus.vectorA.
Proof.
  unfold Corpus.vectorA. split.
  - apply map_Forall_insert_2; [lra|].
    apply map_Forall_insert_2; [lra | apply map_Forall_empty].
  - left. rewrite norm2_insert by reflexivity.
    rewrite norm2_insert by apply lookup_empty.
    rewrite norm2_empty. lra.
Qed.

Lemma vectorB_wf : wf_vector Corpus.vectorB.
Proof.
  unfold Corpus.vectorB. split.
  - apply map_Forall_insert_2; [lra | apply map_Forall_empty].
  - left. rewrite norm2_insert by apply lookup_empty.
    rewrite norm2_empty. lra.
Qed.

Lemma index_wf : wf_index Corpus.index.
Proof.
  split.
  - cbn [Corpus.index recipes vectors]. now rewrite !dom_insert_L, !dom_empty_L.
  - cbn [Corpus.index vectors].
    apply map_Forall_insert_2; [exact vectorA_wf|].
    apply map_Forall_insert_2; [exact vectorB_wf | apply map_Forall_empty].
Qed.

Lemma index_size : corpusSize Corpus.index = 2%nat.
Proof. reflexivity. Qed.

End SampleCorpus.

Lemma rank_sorted_and_bounded_witness :
  Engine.wf_vector Corpus.query /\ Engine.wf_index Corpus.index /\
  match Engine.rank Corpus.query Corpus.index 2 with
  | inl e => e = Engine.InvalidArgument /\ (2 <= 0)%Z
  | inr ranked =>
      (0 < 2)%Z /\
      StronglySorted (Engine.RankedBefore Corpus.index) ranked /\
      Forall (fun p : string * R => (0 <= p.2 <= 1)%R) ranked /\
      Forall (fun p : string * R =>
                exists v, Engine.vectors Corpus.index !! p.1 = Some v /\
                          p.2 = Engine.dot Corpus.query v)
             ranked
  end.
Proof.
  split; [exact query_wf|]. split; [exact index_wf|].
  exact (rank_sorted_and_bounded Corpus.query Corpus.index 2
           query_wf index_wf).
Defined.

Section QueryService.

Import Engine.
Local Open Scope R_scope.

Variable queryVector : list string -> gmap nat R.

Lemma allZero_true (l : list (string * R)) :
  forallb (fun p : string * R => bool_decide (p.2 = 0)) l = true <->
  Forall (fun p : string * R => p.2 = 0) l.
Proof.
  rewrite forallb_forall, List.Forall_forall.
  split; intros H p Hp; specialize (H p Hp).
  - now apply bool_decide_eq_true in H.
  - now apply bool_decide_eq_true.
Qed.

Lemma allZero_false (l : list (string * R)) :
  Exists (fun p : string * R => p.2 <> 0) l ->
  forallb (fun p : string * R => bool_decide (p.2 = 0)) l = false.
Proof.
  intros H. destruct (forallb _ l) eqn:E; [|reflexivity].
  apply allZero_true in E. apply Exists_exists in H as (p & Hp & Hne).
  rewrite Forall_forall in E. now elim Hne; apply E.
Qed.

Lemma joinHits_total (idx : Index) (ranked : list (string * R)) :
  Forall (fun p : string * R => is_Some (recipes idx !! p.1)) ranked ->
  exists hits,
    joinHits idx ranked = Some hits /\ ranking <$> hits = ranked /\
    Forall (fun h => recipes idx !! hit_id h = Some (hit_recipe h)) hits.
Proof.
  induction 1 as [|[id s] ranked [r Hr] _ (hits & IH & Hm & Hf)].
  - exists []. repeat split. constructor.
  - exists ({| hit_id := id; hit_recipe := r; hit_score := s |} :: hits).
    cbn [joinHits]. cbn in Hr. rewrite Hr, IH. split; [reflexivity|].
    split; [cbn; now rewrite Hm|]. constructor; [exact Hr | exact Hf].
Qed.

Lemma ranked_in_index (q : gmap nat R) (idx : Index) (l : list (string * R)) :
  wf_index idx -> l ⊆ scoreAll q idx ->
  Forall (fun p : string * R => is_Some (recipes idx !! p.1)) l.
Proof.
  intros [Hdom _] Hl. apply Forall_forall. intros p Hp.
  destruct (scoreAll_elem q idx p (Hl p Hp)) as (v & Hv & _).
  apply elem_of_dom. rewrite Hdom. apply elem_of_dom. eauto.
Qed.

Lemma clamp_large (idx : Index) (topN : Z) :
  (1 <= corpusSize idx)%nat -> (Z.of_nat (corpusSize idx) <= topN)%Z ->
  clamp idx topN = corpusSize idx.
Proof. intros H1 H2. unfold clamp. lia. Qed.

Lemma search_nonpositive (idx : Index) (ingredients : list string)
  (top_n : Z) :
  (top_n <= 0)%Z -> search queryVector idx ingredients top_n = inl InvalidQuery.
Proof.
  intros H. unfold search. destruct (forallb blank ingredients); [reflexivity|].
  now rewrite (rank_nonpositive _ idx top_n H).
Qed.

Lemma search_blank (idx : Index) (ingredients : list string) (top_n : Z) :
  forallb blank ingredients = true ->
  search queryVector idx ingredients top_n = inl InvalidQuery.
Proof. intros H. unfold search. now rewrite H. Qed.

(** A positive [top_n] at or above the corpus size ranks the whole
    corpus, unless every candidate scores 0. *)
Lemma rank_large (q : gmap nat R) (idx : Index) (topN : Z) :
  (1 <= corpusSize idx)%nat -> (Z.of_nat (corpusSize idx) <= topN)%Z ->
  rank q idx topN =
  inr (if forallb (fun p : string * R => bool_decide (p.2 = 0))
            (scoreAll q idx)
       then [] else sortRanked idx (scoreAll q idx)).
Proof.
  intros H1 H2. rewrite rank_positive by lia.
  rewrite (clamp_large idx topN H1 H2).
  rewrite take_ge; [reflexivity|].
  now rewrite sortRanked_perm, scoreAll_length.
Qed.

(** C6, as the contract has it.  A non-positive [top_n] fails with
    [InvalidQuery], for every request.  For a request with a line that
    is not blank on a well-formed Index that is not empty, a [top_n]
    above the corpus size is not an error and gives what [top_n] equal
    to the corpus size gives, in rank order: every recipe of the corpus
    once when some candidate has a score other than 0, and the empty
    list when every candidate scores 0. *)
Theorem top_n_boundary
  (idx : Index) (ingredients : list string) (top_n : Z) :
  let scored := scoreAll (queryVector ingredients) idx in
  ((top_n <= 0)%Z ->
     search queryVector idx ingredients top_n = inl InvalidQuery) /\
  (wf_index idx -> (1 <= corpusSize idx)%nat ->
   forallb blank ingredients = false ->
   (Z.of_nat (corpusSize idx) < top_n)%Z ->
     exists hits,
       search queryVector idx ingredients top_n = inr hits /\
       search queryVector idx ingredients (Z.of_nat (corpusSize idx))
         = inr hits /\
       StronglySorted (RankedBefore idx) (ranking <$> hits) /\
       Forall (fun h => recipes idx !! hit_id h = Some (hit_recipe h)) hits /\
       (Forall (fun p : string * R => p.2 = 0) scored -> hits = []) /\
       (Exists (fun p : string * R => p.2 <> 0) scored ->
          ranking <$> hits ≡ₚ scored /\ length hits = corpusSize idx)).
Proof.
  intros scored. split; [apply search_nonpositive|].
  intros Hidx Hsize Hblank Hbig. unfold search. rewrite Hblank.
  rewrite !(rank_large (queryVector ingredients) idx) by lia.
  fold scored.
  set (ranked := if forallb _ scored then [] else sortRanked idx scored).
  assert (Hsub : ranked ⊆ scored).
  { subst ranked. destruct (forallb _ scored); [apply list_subseteq_nil|].
    intros p Hp. now rewrite sortRanked_perm in Hp. }
  destruct (joinHits_total idx ranked
              (ranked_in_index _ idx ranked Hidx Hsub))
    as (hits & Hjoin & Hrank & Hrec).
  exists hits. rewrite Hjoin. repeat split; try assumption.
  - rewrite Hrank. subst ranked.
    destruct (forallb _ scored); [constructor | apply sortRanked_sorted].
  - intros Hzero. apply allZero_true in Hzero.
    subst ranked. rewrite Hzero in Hrank. now destruct hits.
  - rewrite Hrank. subst ranked. rewrite (allZero_false scored H).
    apply sortRanked_perm.
  - rewrite <- (length_fmap ranking), Hrank. subst ranked.
    rewrite (allZero_false scored H), sortRanked_perm.
    apply scoreAll_length.
Qed.

End QueryService.

(** No score is other than 0 when no token of the query is known. *)
Lemma rank_unknown_tokens (idx : Engine.Index) (topN : Z) :
  (0 < topN)%Z -> Engine.rank ∅ idx topN = inr [].
Proof.
  intros H. rewrite (rank_positive ∅ idx topN H).
  assert (Hz : forallb (fun p : string * R => bool_decide (p.2 = 0%R))
                 (Engine.scoreAll ∅ idx) = true).
  { apply allZero_true, Forall_forall. intros p Hp.
    destruct (scoreAll_elem ∅ idx p Hp) as (v & _ & ->). apply dot_empty. }
  now rewrite Hz.
Qed.

(** C6 as stated fails: on the sample corpus of two recipes, a search
    of which no token is in the vocabulary, with [top_n = 5], succeeds
    with no entry at all, not with the two recipes. *)
Lemma large_top_n_not_full_corpus :
  Engine.corpusSize Corpus.index = 2%nat /\
  Engine.search Corpus.unknownTokens Corpus.index ["tofu"%string] 5 = inr [].
Proof.
  split; [reflexivity|].
  unfold Engine.search, Corpus.unknownTokens.
  change (forallb Engine.blank ["tofu"%string]) with false.
  now rewrite rank_unknown_tokens.
Qed.

(** The scores of the sample corpus for the sample query. *)
Lemma sample_scores :
  Engine.scoreAll Corpus.query Corpus.index =
  [("A"%string, (3 / 5)%R); ("B"%string, 0%R)].
Proof.
  unfold Engine.scoreAll.
  change (map_to_list (Engine.vectors Corpus.index))
    with [("A"%string, Corpus.vectorA); ("B"%string, Corpus.vectorB)].
  cbn [fmap list_fmap fst snd].
  unfold Corpus.query, Corpus.vectorA, Corpus.vectorB.
  rewrite !dot_insert by reflexivity. rewrite !dot_empty.
  unfold Engine.weight. rewrite lookup_insert_eq.
  rewrite lookup_insert_ne by discriminate. rewrite lookup_empty.
  cbn [default]. unfold Datatypes.id.
  f_equal; [f_equal; lra | f_equal; f_equal; lra].
Qed.

(** The sample query ranks the recipe that has its token first. *)
Lemma sample_ranking :
  Engine.rank Corpus.query Corpus.index 2 =
  inr [("A"%string, (3 / 5)%R); ("B"%string, 0%R)].
Proof.
  rewrite rank_positive by lia. rewrite sample_scores.
  cbn [forallb snd]. rewrite bool_decide_eq_false_2 by lra.
  cbn [andb Engine.sortRanked Engine.insertRanked].
  assert (H : Engine.before Corpus.index
                ("A"%string, (3 / 5)%R) ("B"%string, 0%R) = true).
  { apply before_spec. left. cbn. lra. }
  rewrite H. reflexivity.
Qed.

Lemma top_n_boundary_witness :
  Engine.wf_index Corpus.index /\
  (1 <= Engine.corpusSize Corpus.index)%nat /\
  forallb Engine.blank ["chicken"%string] = false /\
  (Z.of_nat (Engine.corpusSize Corpus.index) < 5)%Z /\
  exists hits,
    Engine.search (fun _ => Corpus.query) Corpus.index ["chicken"%string] 5
      = inr hits /\
    length hits = 2%nat.
Proof.
  assert (Hs : (1 <= Engine.corpusSize Corpus.index)%nat)
    by (rewrite index_size; lia).
  assert (Hn : (Z.of_nat (Engine.corpusSize Corpus.index) < 5)%Z)
    by (rewrite index_size; lia).
  split; [exact index_wf|]. split; [exact Hs|]. split; [reflexivity|].
  split; [exact Hn|].
  destruct (proj2 (top_n_boundary (fun _ => Corpus.query) Corpus.index
                     ["chicken"%string] 5) index_wf Hs eq_refl Hn)
    as (hits & Hsearch & _ & _ & _ & _ & Hfull).
  exists hits. split; [exact Hsearch|].
  rewrite <- index_size. apply Hfull.
  rewrite sample_scores. apply Exists_cons_hd. cbn. lra.
Defined.

(** * Further properties of the client *)

(** ** Parsing the search query *)

Section Parsing.

Import JS.
Local Open Scope string_scope.

Local Abbreviation chars := list_ascii_of_string.

Lemma not_space_exists (q : string) :
  existsb (fun c => negb (isWhiteSpace c)) (chars q) = true <->
  exists c, In c (chars q) /\ isWhiteSpace c = false.
Proof.
  rewrite existsb_exists. split; intros (c & Hin & Hc); exists c; split;
    try assumption; [now apply negb_true_iff in Hc | now apply negb_true_iff].
Qed.

(** X1.  Whether a search is posted is decided by the characters of the
    query: with a character that is not white space the handler posts
    the parsed ingredients with [top_n = 12], otherwise it asks for 50
    random recipes. *)
Theorem search_request_by_characters (q : string) :
  Backend.searchRecipes_request q =
  if existsb (fun c => negb (isWhiteSpace c)) (chars q)
  then POST "/api/recipes/search"
         {| body_ingredients := Backend.ingredientsOf q; body_top_n := 12 |}
  else GET "/api/recipes/random?count=50".
Proof.
  unfold Backend.searchRecipes_request.
  destruct (existsb _ (chars q)) eqn:E.
  - apply not_space_exists, trim_truthy_iff in E. now rewrite E.
  - destruct (truthy (trim q)) eqn:T; [|reflexivity].
    apply trim_truthy_iff, not_space_exists in T. congruence.
Qed.

(** The pieces of a string of separators are all empty. *)
Lemma splitFrom_separators (s : string) (inSep : bool) :
  forallb isSeparator (chars s) = true ->
  forall piece, In piece (splitFrom [] inSep s) -> piece = "".
Proof.
  revert inSep. induction s as [|a s IH]; intros inSep H piece Hin.
  - destruct Hin as [<-|[]]. reflexivity.
  - simpl in H. apply andb_true_iff in H as [Ha Hs].
    simpl in Hin. rewrite Ha in Hin. destruct inSep.
    + now apply (IH true).
    + destruct Hin as [<-|Hin]; [reflexivity | now apply (IH true)].
Qed.

Lemma ingredientsOf_of_separators (q : string) :
  forallb isSeparator (chars q) = true -> Backend.ingredientsOf q = [].
Proof.
  intros F. unfold Backend.ingredientsOf.
  destruct (List.filter _ (split q)) as [|ing l] eqn:E; [reflexivity|].
  assert (Hin : In ing (List.filter
            (fun ing => (0 <? String.length (trim ing))%nat) (split q)))
    by (rewrite E; left; reflexivity).
  apply filter_In in Hin as [Hin Hlen].
  rewrite (splitFrom_separators q false F ing Hin) in Hlen. discriminate.
Qed.

(** X2.  The parsed ingredient list is empty exactly when the query
    consists of white space and commas only. *)
Theorem ingredients_empty_iff_separators (q : string) :
  Backend.ingredientsOf q = [] <-> forallb isSeparator (chars q) = true.
Proof.
  split; [|apply ingredientsOf_of_separators].
  intros E. destruct (forallb isSeparator (chars q)) eqn:F; [reflexivity|].
  exfalso. apply (ingredientsOf_nonempty q); [|exact E].
  clear E. induction q as [|a q IH]; [discriminate|].
  simpl in F. destruct (isSeparator a) eqn:Ea.
  - destruct (IH F) as (c & Hc & Hs). exists c. split; [right|]; assumption.
  - exists a. split; [left; reflexivity | exact Ea].
Qed.

Lemma string_of_list_ascii_app (l k : list ascii) :
  string_of_list_ascii (l ++ k) =
  string_of_list_ascii l ++ string_of_list_ascii k.
Proof. induction l as [|c l IH]; simpl; congruence. Qed.

Lemma append_assoc (s t u : string) : (s ++ t) ++ u = s ++ t ++ u.
Proof. induction s as [|c s IH]; simpl; congruence. Qed.

Lemma Substring_cons (piece s : string) (c : ascii) :
  Substring piece s -> Substring piece (String c s).
Proof.
  intros (pre & post & ->). exists (String c pre), post. reflexivity.
Qed.

Lemma Substring_append_l (piece s t : string) :
  Substring piece s -> Substring piece (t ++ s).
Proof.
  intros H. induction t as [|c t IH]; [exact H|].
  simpl. now apply Substring_cons.
Qed.

(** Every piece of a split occurs in the string that was split. *)
Lemma splitFrom_substring (s : string) (cur : list ascii) (inSep : bool) :
  (inSep = true -> cur = []) ->
  forall piece, In piece (splitFrom cur inSep s) ->
  Substring piece (string_of_list_ascii (rev cur) ++ s).
Proof.
  revert cur inSep. induction s as [|a s IH]; intros cur inSep Hcur piece Hin.
  - destruct Hin as [<-|[]]. exists "", "". simpl.
    now rewrite append_empty_r.
  - simpl in Hin. destruct (isSeparator a) eqn:Ea.
    + destruct inSep.
      * rewrite (Hcur eq_refl) in *. simpl.
        apply Substring_cons. now apply (IH [] true).
      * destruct Hin as [<-|Hin].
        -- exists "", (String a s). reflexivity.
        -- apply Substring_append_l, Substring_cons.
           now apply (IH [] true).
    + specialize (IH (a :: cur) false (fun H => ltac:(discriminate H))
                     piece Hin).
      simpl in IH. rewrite string_of_list_ascii_app, append_assoc in IH.
      exact IH.
Qed.

(** X3.  Every parsed ingredient is a non-empty piece of the query that
    contains neither white space nor a comma. *)
Theorem ingredients_are_tokens (q : string) :
  Forall (fun ing => ing <> "" /\ NoSeparator ing /\ Substring ing q)
         (Backend.ingredientsOf q).
Proof.
  apply List.Forall_forall. intros ing Hin.
  destruct (ingredientsOf_elements q ing Hin) as [Hne Hns].
  split; [exact Hne|]. split; [exact Hns|].
  unfold Backend.ingredientsOf in Hin. apply filter_In in Hin as [Hin _].
  exact (splitFrom_substring q [] false (fun H => ltac:(discriminate H))
           ing Hin).
Qed.

Lemma filter_map_fixed {A : Type} (f : A -> A) (p : A -> bool) (l : list A) :
  (forall x, In x l -> f x = x) ->
  List.filter p (map f l) = List.filter (fun x => p (f x)) l.
Proof.
  induction l as [|x l IH]; intros H; [reflexivity|]. cbn.
  rewrite IH by (intros y Hy; apply H; right; exact Hy).
  rewrite (H x (or_introl eq_refl)).
  destruct (p x); reflexivity.
Qed.

Lemma searchIngredients_as_ingredientsOf (q : string) :
  Query.searchIngredients q = Backend.ingredientsOf q.
Proof.
  unfold Query.searchIngredients.
  destruct (truthy (trim q)) eqn:T.
  - unfold Backend.ingredientsOf. rewrite filter_map_fixed.
    + reflexivity.
    + intros piece Hin. apply trim_NoSeparator.
      apply (splitFrom_pieces q [] false); [intros c []| exact Hin].
  - symmetry. apply ingredientsOf_of_separators.
    apply forallb_forall. intros c Hc.
    destruct (isWhiteSpace c) eqn:W.
    + unfold isSeparator. rewrite W. apply orb_true_r.
    + assert (truthy (trim q) = true)
        by (apply trim_truthy_iff; now exists c).
      congruence.
Qed.

(** X4.  The two grids parse every search query into the same
    ingredients, although one trims before it filters and guards on the
    trimmed query, and the other does neither; so whenever [RecipeGrid]
    posts a search, its body is the one [RecipeGridWithBackend] posts. *)
Theorem grids_parse_alike (q : string) :
  Query.searchIngredients q = Backend.ingredientsOf q /\
  (Query.searchIngredients q <> [] ->
   Query.recipes_request (Query.searchIngredients q)
     = Backend.searchRecipes_request q).
Proof.
  split; [apply searchIngredients_as_ingredientsOf|].
  intros Hne. unfold Query.recipes_request, Backend.searchRecipes_request.
  assert (T : truthy (trim q) = true).
  { unfold Query.searchIngredients in Hne.
    destruct (truthy (trim q)); [reflexivity | now elim Hne]. }
  rewrite T. cbn [negb].
  destruct (Query.searchIngredients q) as [|i l] eqn:E; [now elim Hne|].
  cbn [length Nat.ltb Nat.leb].
  unfold Query.searchRecipesByIngredients_request.
  now rewrite <- E, searchIngredients_as_ingredientsOf.
Qed.

(** A piece without separators is read whole, whatever came before. *)
Lemma splitFrom_piece (p r : string) (cur : list ascii) (inSep : bool) :
  p <> "" -> NoSeparator p ->
  splitFrom cur inSep (p ++ r) = splitFrom (rev (chars p) ++ cur) false r.
Proof.
  revert cur inSep. induction p as [|a p IH]; intros cur inSep Hne Hns;
    [now elim Hne|].
  simpl. rewrite (Hns a (or_introl eq_refl)).
  destruct p as [|b p].
  - reflexivity.
  - rewrite IH; [|discriminate|intros c Hc; apply Hns; right; exact Hc].
    now rewrite <- app_assoc.
Qed.

Lemma string_of_chars (s : string) : string_of_list_ascii (chars s) = s.
Proof. apply string_of_list_ascii_of_string. Qed.

(** Splitting what [join] built gives the pieces back. *)
Lemma split_join (l : list string) (inSep : bool) :
  l <> [] -> Forall (fun p => p <> "" /\ NoSeparator p) l ->
  splitFrom [] inSep (join ", " l) = l.
Proof.
  intros Hl H. revert inSep. induction H as [|p l [Hne Hns] Hrest IH];
    intros inSep; [now elim Hl|].
  destruct l as [|p' l].
  - cbn [join]. rewrite <- (append_empty_r p) at 1.
    rewrite (splitFrom_piece p "" [] inSep Hne Hns).
    cbn [splitFrom]. rewrite app_nil_r, rev_involutive, string_of_chars.
    reflexivity.
  - change (join ", " (p :: p' :: l)) with (p ++ ", " ++ join ", " (p' :: l)).
    rewrite (splitFrom_piece p _ [] inSep Hne Hns).
    change (", " ++ join ", " (p' :: l))
      with (String "," (String " " (join ", " (p' :: l)))).
    cbn [splitFrom]. change (isSeparator ",") with true.
    change (isSeparator " ") with true. cbn [app].
    rewrite app_nil_r, rev_involutive, string_of_chars.
    rewrite (IH ltac:(discriminate) true). reflexivity.
Qed.

Lemma ingredientsOf_join (l : list string) :
  Forall (fun p => p <> "" /\ NoSeparator p) l ->
  Backend.ingredientsOf (join ", " l) = l.
Proof.
  intros H. destruct l as [|p l]; [reflexivity|].
  unfold Backend.ingredientsOf, split.
  rewrite (split_join (p :: l) false ltac:(discriminate) H).
  induction H as [|x k [Hne Hns] _ IH]; [reflexivity|].
  cbn [List.filter]. rewrite (trim_NoSeparator x Hns).
  apply nonempty_length in Hne. now rewrite Hne, IH.
Qed.

Lemma ingredientsOf_good (q : string) :
  Forall (fun p => p <> "" /\ NoSeparator p) (Backend.ingredientsOf q).
Proof.
  apply List.Forall_forall. intros ing Hin.
  now apply (ingredientsOf_elements q).
Qed.

(** X5.  The ingredient list a grid prints under its heading reads back
    as itself: parsing the printed list, joined by a comma and a space,
    gives the ingredients of the query again, in both grids. *)
Theorem printed_ingredients_parse_back (q sel : string) :
  truthy (trim q) = true ->
  Backend.getDisplaySubtitle q sel =
    "Based on your ingredients: " ++ join ", " (Backend.ingredientsOf q) /\
  Backend.ingredientsOf (join ", " (Backend.ingredientsOf q))
    = Backend.ingredientsOf q /\
  Query.searchIngredients (join ", " (Query.searchIngredients q))
    = Query.searchIngredients q.
Proof.
  intros T. split; [|split].
  - unfold Backend.getDisplaySubtitle. now rewrite T.
  - apply ingredientsOf_join, ingredientsOf_good.
  - rewrite !searchIngredients_as_ingredientsOf.
    apply ingredientsOf_join, ingredientsOf_good.
Qed.

End Parsing.

Lemma printed_ingredients_parse_back_witness :
  JS.truthy (JS.trim " chicken,rice  onion ") = true /\
  Backend.getDisplaySubtitle " chicken,rice  onion " "All"
    = "Based on your ingredients: chicken, rice, onion"%string /\
  Backend.ingredientsOf "chicken, rice, onion"
    = Backend.ingredientsOf " chicken,rice  onion ".
Proof.
  assert (T : JS.truthy (JS.trim " chicken,rice  onion ") = true)
    by reflexivity.
  split; [exact T|].
  destruct (printed_ingredients_parse_back " chicken,rice  onion " "All" T)
    as (H1 & H2 & _).
  split; [rewrite H1; reflexivity | exact H2].
Defined.

(** ** The effects of RecipeGridWithBackend *)

Section Effects.

Import JS.
Local Open Scope string_scope.

(** The effects as written are their two steps in a row. *)
Lemma effects_in_two_steps (q : string)
  (o : FetchOutcome (list Backend.BackendRecipe)) (st : Backend.State) :
  Backend.loadInitialRecipes o st =
    Backend.loadInitialRecipes_finish o (Backend.loadInitialRecipes_start st) /\
  Backend.searchRecipes q o st =
    Backend.searchRecipes_finish q o (Backend.searchRecipes_start q st) /\
  Backend.loadRecipes o st =
    Backend.loadRecipes_finish o (Backend.loadRecipes_start st).
Proof.
  repeat split.
  unfold Backend.searchRecipes, Backend.searchRecipes_finish,
    Backend.searchRecipes_start.
  destruct (negb (truthy (trim q))); reflexivity.
Qed.

(** An event that finishes an effect with an [ok] response and a body
    stores that body; no other event touches the recipes. *)
Lemma recipes_step (st : Backend.State) (e : Backend.Event) :
  Backend.recipes (Backend.step st e) =
  match Backend.stored e with
  | Some data => data
  | None => Backend.recipes st
  end.
Proof.
  destruct e as [o| |o|q|q o| |o|c]; cbn [Backend.step Backend.stored].
  - destruct o as [|[|] [d|]]; reflexivity.
  - reflexivity.
  - destruct o as [|[|] [d|]]; reflexivity.
  - unfold Backend.searchRecipes_start.
    destruct (negb (truthy (trim q))); reflexivity.
  - unfold Backend.searchRecipes_finish.
    destruct (negb (truthy (trim q))), o as [|[|] [d|]]; try reflexivity.
    cbn. destruct (length d =? 0)%nat; reflexivity.
  - reflexivity.
  - destruct o as [|[|] [d|]]; reflexivity.
  - reflexivity.
Qed.

Lemma run_snoc (events : list Backend.Event) (e : Backend.Event) :
  Backend.run (events ++ [e])%list = Backend.step (Backend.run events) e.
Proof. unfold Backend.run. now rewrite fold_left_app. Qed.

(** The batches the events of a trace store, in order. *)
Lemma stored_snoc (events : list Backend.Event) (e : Backend.Event) :
  omap Backend.stored (events ++ [e])%list =
  (omap Backend.stored events ++
   match Backend.stored e with Some d => [d] | None => [] end)%list.
Proof.
  rewrite omap_app. cbn. now destruct (Backend.stored e).
Qed.

(** X6.  Whatever the order in which effects start and finish, the
    recipes in the state are the body of the response that succeeded
    last, and the empty list before any response has succeeded: a
    failed, rejected or unparsable response never changes them. *)
Theorem last_successful_response_wins (events : list Backend.Event) :
  Backend.recipes (Backend.run events) =
  default [] (last (omap Backend.stored events)).
Proof.
  induction events as [|e events IH] using rev_ind; [reflexivity|].
  rewrite run_snoc, recipes_step, stored_snoc, IH.
  destruct (Backend.stored e) as [d|].
  - now rewrite last_snoc.
  - now rewrite app_nil_r.
Qed.

End Effects.

Section Reachable.

Import JS.
Local Open Scope string_scope.

Lemma state_setError (st : Backend.State) (m : string) :
  In m Backend.messages -> Backend.wellFormed st ->
  Backend.wellFormed (Backend.setError (Some m) st).
Proof. intros Hm [Hc _]. split; [exact Hc|]. right. now exists m. Qed.

Lemma state_clearError (st : Backend.State) :
  Backend.wellFormed st -> Backend.wellFormed (Backend.setError None st).
Proof. intros [Hc _]. split; [exact Hc | now left]. Qed.

Lemma state_step (st : Backend.State) (e : Backend.Event) :
  Backend.wellFormed st -> Backend.wellFormed (Backend.step st e).
Proof.
  intros H.
  assert (M1 : In "Failed to load recipes" Backend.messages)
    by (left; reflexivity).
  assert (M2 : In "Search failed. Please try again." Backend.messages)
    by (right; left; reflexivity).
  assert (M3 : In "No recipes found for your ingredients. Try different ingredients or check spelling."
                 Backend.messages)
    by (right; right; left; reflexivity).
  destruct e as [o| |o|q|q o| |o|c]; cbn [Backend.step].
  - destruct o as [|[|] [d|]]; try exact H.
    destruct H as [_ He]. split; [reflexivity | exact He].
  - apply state_clearError in H. exact H.
  - destruct o as [|[|] [d|]]; cbn;
      try (apply (state_setError _ _ M1) in H; exact H); exact H.
  - unfold Backend.searchRecipes_start.
    destruct (negb (truthy (trim q))); [exact H|].
    apply state_clearError in H. exact H.
  - unfold Backend.searchRecipes_finish.
    destruct (negb (truthy (trim q))).
    + destruct o as [|[|] [d|]]; exact H.
    + destruct o as [|[|] [d|]]; cbn;
        try (apply (state_setError _ _ M2) in H; exact H).
      destruct (length d =? 0)%nat; [|exact H].
      apply (state_setError _ _ M3) in H. exact H.
  - apply state_clearError in H. exact H.
  - destruct o as [|[|] [d|]]; cbn;
      try (apply (state_setError _ _ M1) in H; exact H); exact H.
  - exact H.
Qed.

(** X7.  In every state the component can reach, whatever the server
    answers and in whatever order effects and clicks happen, the first
    category button is "All", and the error cell is empty or holds one
    of the component's three messages, which the red box then shows. *)
Theorem reachable_states (events : list Backend.Event) :
  let st := Backend.run events in
  head (Backend.categoryButtons st) = Some "All" /\
  (Backend.error st = None \/
   exists m, In m Backend.messages /\ Backend.error st = Some m) /\
  Backend.errorBanner st = Backend.error st.
Proof.
  cbn zeta.
  assert (H : Backend.wellFormed (Backend.run events)).
  { induction events as [|e events IH] using rev_ind.
    - split; [reflexivity | now left].
    - unfold Backend.run. rewrite fold_left_app. cbn [fold_left].
      now apply state_step. }
  destruct H as [Hc He]. split; [exact Hc|]. split; [exact He|].
  unfold Backend.errorBanner.
  destruct He as [->|(m & Hm & ->)]; [reflexivity|].
  destruct Hm as [<-|[<-|[<-|[]]]]; reflexivity.
Qed.

(** X8.  The reload that the search effect does for a blank query is
    silent: started or finished, whatever the outcome of its request,
    it neither sets nor clears the error message, so a failed reload
    reports nothing and an earlier message stays. *)
Theorem blank_reload_is_silent (q : string)
  (o : FetchOutcome (list Backend.BackendRecipe)) (st : Backend.State) :
  truthy (trim q) = false ->
  Backend.error (Backend.searchRecipes_start q st) = Backend.error st /\
  Backend.error (Backend.searchRecipes_finish q o st) = Backend.error st /\
  Backend.error (Backend.searchRecipes q o st) = Backend.error st.
Proof.
  intros T. unfold Backend.searchRecipes_start, Backend.searchRecipes_finish,
    Backend.searchRecipes. rewrite T. cbn [negb].
  repeat split; destruct o as [|[|] [d|]]; reflexivity.
Qed.

Lemma blank_reload_is_silent_witness :
  truthy (trim "   ") = false /\
  Backend.error
    (Backend.searchRecipes "   " Rejects
       (Backend.setError (Some "Search failed. Please try again.")
          Backend.initial))
  = Some "Search failed. Please try again.".
Proof.
  assert (T : truthy (trim "   ") = false) by reflexivity.
  split; [exact T|].
  destruct (blank_reload_is_silent "   " Rejects
              (Backend.setError (Some "Search failed. Please try again.")
                 Backend.initial) T) as (_ & _ & H).
  rewrite H. reflexivity.
Defined.

(** X9.  While the search query is not blank, the selected category
    sends nothing: the requests of the component are the same for every
    selection, and none of them is a by-category request. *)
Theorem search_suppresses_category_request (q sel sel' : string) :
  truthy (trim q) = true ->
  Backend.requests q sel = Backend.requests q sel' /\
  Forall (fun r => endpointOf r <> Some EpByCategory) (Backend.requests q sel).
Proof.
  intros T. unfold Backend.requests, Backend.searchRecipes_request.
  rewrite T. cbn [negb]. split; [reflexivity|].
  repeat constructor; discriminate.
Qed.

Lemma search_suppresses_category_request_witness :
  truthy (trim "rice") = true /\
  Backend.requests "rice" "Thai" = Backend.requests "rice" "All".
Proof.
  assert (T : truthy (trim "rice") = true) by reflexivity.
  split; [exact T|].
  exact (proj1 (search_suppresses_category_request "rice" "Thai" "All" T)).
Defined.

End Reachable.

(** ** What the grid shows *)

Section Notices.

Import JS.
Local Open Scope string_scope.

Lemma gridItem_badge (fl : Q -> Q) (q : string) (r : Backend.BackendRecipe) :
  truthy (trim q) = true ->
  (Card.isBadge (Card.v_badge (Backend.gridItem fl q r).2) <->
   Backend.hasScore r = true).
Proof.
  intros T. unfold Backend.gridItem, Backend.showSimilarityScore,
    Backend.hasScore, Card.isBadge.
  rewrite T. cbn [andb].
  unfold Card.render, Card.badgeSlot.
  cbn [Card.v_badge snd Backend.convertToRecipeCardFormat
       Card.similarityScore].
  destruct (Backend.similarityScore r) as [s|].
  - destruct (truthyNum s) eqn:E.
    + split; [reflexivity | eauto].
    + split; [intros (c & p & H); discriminate H | discriminate].
  - split; [intros (c & p & H); discriminate H | discriminate].
Qed.

Lemma gridItem_blank (fl : Q -> Q) (q : string) (r : Backend.BackendRecipe) :
  truthy (trim q) = false ->
  Card.v_badge (Backend.gridItem fl q r).2 = Card.Nothing.
Proof.
  intros T. unfold Backend.gridItem, Backend.showSimilarityScore.
  now rewrite T.
Qed.

(** X10.  The line under the grid agrees with the grid: it counts the
    cards shown, and it says that recipes are ranked by similarity
    exactly when at least one card carries a badge.  Without a search
    query there is no such line and no card carries a badge, even if the
    recipes have scores. *)
Theorem ranking_note_iff_badge (fl : Q -> Q) (q : string) (st : Backend.State) :
  (truthy (trim q) = true ->
   match Backend.footer q st with
   | Some (n, ranked) =>
       n = length (Backend.grid fl q st) /\ (0 < n)%nat /\
       (ranked = true <->
        Exists (fun item => Card.isBadge (Card.v_badge item.2))
               (Backend.grid fl q st))
   | None => Backend.grid fl q st = []
   end) /\
  (truthy (trim q) = false ->
   Backend.footer q st = None /\
   Forall (fun item => Card.v_badge item.2 = Card.Nothing)
          (Backend.grid fl q st)).
Proof.
  unfold Backend.footer, Backend.grid.
  set (shown := Backend.filteredRecipes _ _). split; intros T; rewrite T.
  - cbn [andb]. destruct shown as [|r shown']; [reflexivity|].
    set (l := r :: shown'). change (0 <? length l)%nat with true.
    cbn iota. rewrite length_map. split; [reflexivity|].
    split; [cbn; lia|].
    rewrite existsb_exists, List.Exists_exists. split.
    + intros (x & Hin & Hx). exists (Backend.gridItem fl q x).
      split; [now apply in_map | now apply gridItem_badge].
    + intros (item & Hin & Hb). apply in_map_iff in Hin as (x & <- & Hin).
      exists x. split; [exact Hin | now apply (gridItem_badge fl q x T)].
  - split; [reflexivity|]. apply List.Forall_forall.
    intros item Hin. apply in_map_iff in Hin as (x & <- & _).
    now apply gridItem_blank.
Qed.

Lemma ranking_note_iff_badge_witness :
  truthy (trim "chicken") = true /\
  Exists (fun item => Card.isBadge (Card.v_badge item.2))
    (Backend.grid (fun x => x) "chicken"
       (Backend.setRecipes [Sample.chickenBreast; Sample.unscored]
          Backend.initial)).
Proof.
  assert (T : truthy (trim "chicken") = true) by reflexivity.
  split; [exact T|].
  pose proof (proj1 (ranking_note_iff_badge (fun x => x) "chicken"
    (Backend.setRecipes [Sample.chickenBreast; Sample.unscored]
       Backend.initial)) T) as H.
  assert (E : Backend.footer "chicken"
                (Backend.setRecipes [Sample.chickenBreast; Sample.unscored]
                   Backend.initial) = Some (2%nat, true)) by reflexivity.
  rewrite E in H. destruct H as (_ & _ & Hiff). now apply Hiff.
Defined.

(** X11.  A search that succeeds with no recipe and a blank reload that
    succeeds with no recipe are announced differently: after the search
    the red box holds the no-match message and the "No recipes found"
    paragraph and the count line are absent; after the reload, with no
    other request pending and no message set, the paragraph is there
    and the red box is not. *)
Theorem empty_results_notices (fl : Q -> Q) (q : string) (st : Backend.State) :
  (truthy (trim q) = true ->
   let st' := Backend.searchRecipes q (Resolves true (Some [])) st in
   Backend.grid fl q st' = [] /\
   Backend.errorBanner st' =
     Some "No recipes found for your ingredients. Try different ingredients or check spelling." /\
   Backend.emptyHint st' = false /\
   Backend.footer q st' = None) /\
  (truthy (trim q) = false ->
   Backend.loading st = false -> Backend.error st = None ->
   let st' := Backend.searchRecipes q (Resolves true (Some [])) st in
   Backend.grid fl q st' = [] /\
   Backend.errorBanner st' = None /\
   Backend.emptyHint st' = true /\
   Backend.footer q st' = None).
Proof.
  assert (F : forall sel, Backend.filteredRecipes [] sel = []).
  { intros sel. unfold Backend.filteredRecipes. now destruct (String.eqb _ _). }
  split.
  - intros T st'. subst st'. unfold Backend.searchRecipes. rewrite T.
    cbn [negb length Nat.eqb].
    unfold Backend.grid, Backend.emptyHint, Backend.footer,
      Backend.errorBanner. cbn. rewrite F. cbn.
    rewrite !andb_false_r. repeat split.
  - intros T Hl He st'. subst st'. unfold Backend.searchRecipes. rewrite T.
    cbn [negb].
    unfold Backend.grid, Backend.emptyHint, Backend.footer,
      Backend.errorBanner. cbn. rewrite F, Hl, He, T. repeat split.
Qed.

Lemma empty_results_notices_witness :
  truthy (trim "tofu") = true /\
  Backend.emptyHint
    (Backend.searchRecipes "tofu" (Resolves true (Some [])) Backend.initial)
  = false /\
  truthy (trim "") = false /\
  Backend.emptyHint
    (Backend.searchRecipes "" (Resolves true (Some [])) Backend.initial)
  = true.
Proof.
  assert (T : truthy (trim "tofu") = true) by reflexivity.
  assert (B : truthy (trim "") = false) by reflexivity.
  split; [exact T|]. split.
  - exact (proj1 (proj2 (proj2
      (proj1 (empty_results_notices (fun x => x) "tofu" Backend.initial) T)))).
  - split; [exact B|].
    exact (proj1 (proj2 (proj2
      (proj2 (empty_results_notices (fun x => x) "" Backend.initial)
         B eq_refl eq_refl)))).
Defined.

End Notices.

(** ** The badge, further *)

Section BadgeBands.

Import JS.
Local Open Scope string_scope.
Local Open Scope Q_scope.

Variable fl : Q -> Q.

Lemma colour_by_band (s : Q) :
  let percentage := fl (s * 100) in
  Card.band (Card.getSimilarityColor fl s) =
  if Qle_bool 80 percentage then 3%nat
  else if Qle_bool 60 percentage then 2%nat
  else if Qle_bool 40 percentage then 1%nat else 0%nat.
Proof.
  cbn zeta. unfold Card.getSimilarityColor.
  destruct (Qle_bool 80 _); [reflexivity|].
  destruct (Qle_bool 60 _); [reflexivity|].
  destruct (Qle_bool 40 _); reflexivity.
Qed.

Lemma Qle_bool_false (x y : Q) : Qle_bool x y = false <-> y < x.
Proof.
  split.
  - intros H. apply Qnot_le_lt. intros L. apply Qle_bool_iff in L. congruence.
  - intros H. destruct (Qle_bool x y) eqn:E; [|reflexivity].
    apply Qle_bool_iff in E. lra.
Qed.

(** X12.  The colour of a badge agrees with the percentage printed on
    it except at the printed thresholds themselves: a badge that prints
    81 or more is green, one that prints 61 to 79 is yellow, 41 to 59
    orange, 39 or less red.  (A badge that prints 80, 60 or 40 is of
    either neighbouring colour: the colour is chosen before rounding.) *)
Theorem colour_matches_printed_percentage (s : Q) :
  let printed := Card.formatSimilarityScore fl s in
  let band := Card.band (Card.getSimilarityColor fl s) in
  ((81 <= printed)%Z -> band = 3%nat) /\
  ((61 <= printed <= 79)%Z -> band = 2%nat) /\
  ((41 <= printed <= 59)%Z -> band = 1%nat) /\
  ((printed <= 39)%Z -> band = 0%nat) /\
  ((printed = 80)%Z -> band = 3%nat \/ band = 2%nat).
Proof.
  cbn zeta. rewrite colour_by_band. unfold Card.formatSimilarityScore.
  set (p := fl (s * 100)).
  destruct (Math_round_nearest p) as [Hlo Hhi].
  set (r := Math_round p) in *.
  assert (Hz : forall a b : Z, (a <= b)%Z -> inject_Z a <= inject_Z b)
    by (intros a b H; now rewrite <- Zle_Qle).
  repeat split.
  - intros H. apply (Hz 81%Z r) in H.
    assert (L : 80 <= p) by (change (inject_Z 81) with 81 in H; lra).
    apply Qle_bool_iff in L. now rewrite L.
  - intros [H1 H2]. apply (Hz 61%Z r) in H1. apply (Hz r 79%Z) in H2.
    change (inject_Z 61) with 61 in H1. change (inject_Z 79) with 79 in H2.
    assert (L1 : p < 80) by lra. assert (L2 : 60 <= p) by lra.
    apply Qle_bool_false in L1. apply Qle_bool_iff in L2.
    now rewrite L1, L2.
  - intros [H1 H2]. apply (Hz 41%Z r) in H1. apply (Hz r 59%Z) in H2.
    change (inject_Z 41) with 41 in H1. change (inject_Z 59) with 59 in H2.
    assert (L0 : p < 80) by lra.
    assert (L1 : p < 60) by lra. assert (L2 : 40 <= p) by lra.
    apply Qle_bool_false in L0, L1. apply Qle_bool_iff in L2.
    now rewrite L0, L1, L2.
  - intros H. apply (Hz r 39%Z) in H. change (inject_Z 39) with 39 in H.
    assert (L0 : p < 80) by lra. assert (L1 : p < 60) by lra.
    assert (L2 : p < 40) by lra.
    apply Qle_bool_false in L0, L1, L2. now rewrite L0, L1, L2.
  - intros H. rewrite H in Hlo, Hhi. change (inject_Z 80) with 80 in *.
    destruct (Qle_bool 80 p); [now left|].
    assert (L2 : 60 <= p) by lra. apply Qle_bool_iff in L2.
    rewrite L2. now right.
Qed.

Hypothesis fl_monotone : forall x y, x <= y -> fl x <= fl y.

(** X13.  A higher score never gets a lower percentage nor a worse
    colour. *)
Theorem badge_monotone (s t : Q) :
  s <= t ->
  (Card.formatSimilarityScore fl s <= Card.formatSimilarityScore fl t)%Z /\
  (Card.band (Card.getSimilarityColor fl s) <=
   Card.band (Card.getSimilarityColor fl t))%nat.
Proof.
  intros H.
  assert (Hp : fl (s * 100) <= fl (t * 100)) by (apply fl_monotone; lra).
  split.
  - unfold Card.formatSimilarityScore. now apply Math_round_monotone.
  - rewrite !colour_by_band. cbn zeta.
    set (p := fl (s * 100)) in *. set (p' := fl (t * 100)) in *.
    assert (M : forall k, Qle_bool k p = true -> Qle_bool k p' = true).
    { intros k Hk. apply Qle_bool_iff in Hk. apply Qle_bool_iff. lra. }
    destruct (Qle_bool 80 p) eqn:E80; [now rewrite (M 80 E80)|].
    destruct (Qle_bool 60 p) eqn:E60.
    { rewrite (M 60 E60). destruct (Qle_bool 80 p'); lia. }
    destruct (Qle_bool 40 p) eqn:E40.
    { rewrite (M 40 E40).
      destruct (Qle_bool 80 p'); [lia|]. destruct (Qle_bool 60 p'); lia. }
    lia.
Qed.

End BadgeBands.

(** The score 0.795 prints 80 and is yellow. *)
Example printed_80_yellow :
  Card.formatSimilarityScore (fun x => x) (795 # 1000) = 80%Z /\
  Card.getSimilarityColor (fun x => x) (795 # 1000)
    = "text-yellow-400 bg-yellow-500/20"%string.
Proof. split; reflexivity. Qed.

Lemma badge_monotone_witness :
  (45 # 100 <= 81 # 100)%Q /\
  (Card.formatSimilarityScore (fun x => x) (45 # 100) <=
   Card.formatSimilarityScore (fun x => x) (81 # 100))%Z /\
  (Card.band (Card.getSimilarityColor (fun x => x) (45 # 100)) <=
   Card.band (Card.getSimilarityColor (fun x => x) (81 # 100)))%nat.
Proof.
  assert (H : (45 # 100 <= 81 # 100)%Q) by discriminate.
  split; [exact H|].
  exact (badge_monotone (fun x => x) (fun x y L => L) (45 # 100) (81 # 100) H).
Defined.

Lemma colour_matches_printed_percentage_witness :
  (81 <= Card.formatSimilarityScore (fun x => x) (9 # 10))%Z /\
  Card.band (Card.getSimilarityColor (fun x => x) (9 # 10)) = 3%nat.
Proof.
  assert (H : (81 <= Card.formatSimilarityScore (fun x => x) (9 # 10))%Z)
    by discriminate.
  split; [exact H|].
  exact (proj1 (colour_matches_printed_percentage (fun x => x) (9 # 10)) H).
Defined.

(** ** Categories: the filter and the request *)

Section Categories.

Import JS.
Local Open Scope string_scope.

Local Abbreviation chars := list_ascii_of_string.

Lemma includes_self (s : string) : includes s s = true.
Proof.
  apply includes_spec. exists "", "". now rewrite append_empty_r.
Qed.

Lemma includes_empty (s : string) : includes s "" = true.
Proof. apply includes_spec. exists "", s. reflexivity. Qed.

Lemma List_filter_all {A : Type} (f : A -> bool) (l : list A) :
  (forall x, In x l -> f x = true) -> List.filter f l = l.
Proof.
  induction l as [|x l IH]; intros H; [reflexivity|]. cbn.
  rewrite (H x (or_introl eq_refl)), IH; [reflexivity|].
  intros y Hy. apply H. now right.
Qed.

(** X14.  The client filter hides nothing from a batch whose categories
    all equal the selection up to letter case, as the batch fetched for
    a category button is meant to be: such a batch is displayed whole
    and in order.  An empty selection hides nothing either. *)
Theorem matching_batch_shown_whole
  (batch : list Backend.BackendRecipe) (sel : string) :
  (Forall (fun r => toLowerCase (Backend.category r) = toLowerCase sel) batch ->
   Backend.filteredRecipes batch sel = batch) /\
  Backend.filteredRecipes batch "" = batch.
Proof.
  unfold Backend.filteredRecipes. split.
  - intros H. destruct (String.eqb sel "All"); [reflexivity|].
    apply List_filter_all. intros r Hr.
    rewrite List.Forall_forall in H. rewrite (H r Hr). apply includes_self.
  - cbn. apply List_filter_all. intros r _. apply includes_empty.
Qed.

Lemma matching_batch_shown_whole_witness :
  Forall (fun r => toLowerCase (Backend.category r)
                   = toLowerCase "chicken breast")
         [Sample.chickenBreast] /\
  Backend.filteredRecipes [Sample.chickenBreast] "chicken breast"
    = [Sample.chickenBreast].
Proof.
  assert (H : Forall (fun r => toLowerCase (Backend.category r)
                               = toLowerCase "chicken breast")
                     [Sample.chickenBreast])
    by (repeat constructor).
  split; [exact H|].
  exact (proj1 (matching_batch_shown_whole [Sample.chickenBreast]
                  "chicken breast") H).
Defined.

(** Unescaping undoes the escaping of one character. *)
Lemma unescape_encodeChar (c : ascii) (s : string) :
  unescape (encodeChar c ++ s) = String c (unescape s).
Proof.
  destruct c as [[] [] [] [] [] [] [] []]; reflexivity.
Qed.

Lemma unescape_encodeURIComponent (s : string) :
  unescape (encodeURIComponent s) = s.
Proof.
  induction s as [|c s IH]; [reflexivity|].
  cbn [encodeURIComponent]. now rewrite unescape_encodeChar, IH.
Qed.

Lemma category_request_url (sel : string) :
  String.eqb sel "All" = false -> truthy sel = true ->
  Backend.loadRecipes_request sel =
  GET ("/api/recipes/by-category/" ++ encodeURIComponent sel).
Proof.
  intros H1 H2. unfold Backend.loadRecipes_request. now rewrite H1, H2.
Qed.

(** X15.  The request of a category button names its category
    faithfully: after the fixed prefix comes one path segment, escaped,
    that unescapes to the selected category, so two different
    categories are never fetched at the same URL. *)
Theorem category_request_names_category (sel sel' : string) :
  sel <> "All" -> sel <> "" -> sel' <> "All" -> sel' <> "" ->
  (exists seg,
     Backend.loadRecipes_request sel = GET ("/api/recipes/by-category/" ++ seg)
     /\ isSegment seg = true /\ unescape seg = sel) /\
  (Backend.loadRecipes_request sel = Backend.loadRecipes_request sel' ->
   sel = sel').
Proof.
  intros A1 E1 A2 E2.
  assert (T : forall s, s <> "" -> truthy s = true)
    by (intros [|c s] H; [now elim H | reflexivity]).
  pose proof (category_request_url sel (not_All_eqb sel A1) (T sel E1)) as R1.
  pose proof (category_request_url sel' (not_All_eqb sel' A2) (T sel' E2)) as R2.
  split.
  - exists (encodeURIComponent sel). split; [exact R1|]. split.
    + apply plain_segment;
        [apply encodeURIComponent_truthy, T, E1 | apply encodeURIComponent_plain].
    + apply unescape_encodeURIComponent.
  - rewrite R1, R2. intros H. injection H as H.
    rewrite <- (unescape_encodeURIComponent sel),
            <- (unescape_encodeURIComponent sel').
    now rewrite H.
Qed.

Lemma category_request_names_category_witness :
  "Chicken Breast" <> "All" /\ "Chicken Breast" <> "" /\
  exists seg,
    Backend.loadRecipes_request "Chicken Breast"
      = GET ("/api/recipes/by-category/" ++ seg) /\
    isSegment seg = true /\ unescape seg = "Chicken Breast".
Proof.
  assert (A : "Chicken Breast" <> "All") by discriminate.
  assert (E : "Chicken Breast" <> "") by discriminate.
  split; [exact A|]. split; [exact E|].
  exact (proj1 (category_request_names_category
                  "Chicken Breast" "Chicken Breast" A E A E)).
Defined.

End Categories.

(** ** The modal *)

Section ModalCells.

Context {A : Type}.

Lemma modal_run_snoc (events : list (Modal.Event A)) (e : Modal.Event A) :
  Modal.run (events ++ [e]) = Modal.step (Modal.run events) e.
Proof. unfold Modal.run. now rewrite fold_left_app. Qed.

(** X16.  Through any sequence of clicks on cards and on the close
    button, the modal's two cells stay in step (it is open exactly when
    a recipe is selected), and the modal shows the recipe of the last
    click if nothing was closed since, and nothing otherwise. *)
Theorem modal_shows_last_click (events : list (Modal.Event A)) :
  let st := Modal.run events in
  (Modal.isModalOpen st = true <-> is_Some (Modal.selectedRecipe st)) /\
  Modal.shown st =
    match last events with
    | Some (Modal.Click recipe) => Some recipe
    | _ => None
    end.
Proof.
  cbn zeta. destruct events as [|e0 events] using rev_ind.
  - split; [|reflexivity]. cbn. split; [discriminate | intros [x H]; discriminate].
  - rewrite modal_run_snoc, last_snoc. destruct e0 as [recipe|]; cbn.
    + split; [|reflexivity]. split; eauto.
    + split; [|reflexivity].
      split; [discriminate | intros [x H]; discriminate].
Qed.

End ModalCells.

(** ** The grid over the sample recipes *)

Section SampleGrid.

Import JS.
Local Open Scope string_scope.

Lemma Substring_trans (a b c : string) :
  Substring a b -> Substring b c -> Substring a c.
Proof.
  intros (p1 & q1 & ->) (p2 & q2 & ->).
  exists (p2 ++ p1), (q1 ++ q2). now rewrite !append_assoc.
Qed.

Lemma includes_trans (s t u : string) :
  includes t u = true -> includes s t = true -> includes s u = true.
Proof.
  rewrite !includes_spec. intros H1 H2. now apply (Substring_trans u t s).
Qed.

(** X17.  The sample grid shows, in the order of the sample array,
    exactly the recipes whose title, description or category contains
    the search text, letter case aside, and whose category is the
    selected one, letter case included, unless "All" is selected. *)
Theorem sample_grid_shows (q sel : string) (r : Query.Recipe) :
  Local.filteredRecipes q sel `sublist_of` Local.SAMPLE_RECIPES /\
  (In r (Local.filteredRecipes q sel) <->
   In r Local.SAMPLE_RECIPES /\
   (Substring (toLowerCase q) (toLowerCase (Query.title r)) \/
    Substring (toLowerCase q) (toLowerCase (Query.description r)) \/
    Substring (toLowerCase q) (toLowerCase (Query.category r))) /\
   (sel = "All" \/ Query.category r = sel)).
Proof.
  split; [apply List_filter_sublist|].
  unfold Local.filteredRecipes. rewrite filter_In. unfold Local.keeps.
  rewrite andb_true_iff, !orb_true_iff, !includes_spec, !String.eqb_eq.
  tauto.
Qed.

(** X18.  Typing more never brings a recipe back: when the search text
    is extended at either end, the sample grid shows a subsequence of
    what it showed before. *)
Theorem longer_query_narrows (q before after sel : string) :
  Local.filteredRecipes (before ++ q ++ after) sel
    `sublist_of` Local.filteredRecipes q sel.
Proof.
  unfold Local.filteredRecipes.
  induction Local.SAMPLE_RECIPES as [|r l IH]; cbn [List.filter];
    [constructor|].
  assert (K : Local.keeps (before ++ q ++ after) sel r = true ->
              Local.keeps q sel r = true).
  { unfold Local.keeps. rewrite !andb_true_iff, !orb_true_iff.
    assert (S : includes (toLowerCase (before ++ q ++ after)) (toLowerCase q)
                = true).
    { apply includes_spec. rewrite !toLowerCase_app.
      now exists (toLowerCase before), (toLowerCase after). }
    intros [[[H|H]|H] Hc]; (split; [|exact Hc]).
    - left. left. exact (includes_trans _ _ _ S H).
    - left. right. exact (includes_trans _ _ _ S H).
    - right. exact (includes_trans _ _ _ S H). }
  destruct (Local.keeps (before ++ q ++ after) sel r) eqn:E.
  - rewrite (K eq_refl). now constructor.
  - destruct (Local.keeps q sel r); [now constructor | exact IH].
Qed.

End SampleGrid.

(** ** More concrete inputs *)

Section MoreExamples.

Local Open Scope string_scope.

Lemma grids_parse_alike_witness :
  Query.searchIngredients "rice, tofu" <> [] /\
  Query.recipes_request (Query.searchIngredients "rice, tofu")
    = Backend.searchRecipes_request "rice, tofu".
Proof.
  assert (H : Query.searchIngredients "rice, tofu" <> []) by discriminate.
  split; [exact H|].
  exact (proj2 (grids_parse_alike "rice, tofu") H).
Defined.

Example sample_search_rice :
  map Query.id (Local.filteredRecipes "RICE" "All") = ["1"; "3"; "5"].
Proof. reflexivity. Qed.

Example sample_category_is_exact :
  map Query.id (Local.filteredRecipes "" "Thai") = ["3"] /\
  Local.filteredRecipes "" "thai" = [].
Proof. split; reflexivity. Qed.

Example subtitle_of_commas :
  Backend.getDisplayTitle "," "Thai" = "Recipe Recommendations" /\
  Backend.getDisplaySubtitle "," "Thai" = "Based on your ingredients: ".
Proof. split; reflexivity. Qed.

Example title_of_category :
  Backend.getDisplayTitle "  " "Thai" = "Thai Recipes" /\
  Backend.getDisplaySubtitle "  " "Thai" = "Discover delicious thai cuisine".
Proof. split; reflexivity. Qed.

(** A category reload that finishes first is overwritten by the random
    reload of the search effect that finishes after it. *)
Example random_reload_overwrites_category :
  Backend.recipes
    (Backend.run
       [Backend.CategoryClicked "Dessert";
        Backend.SearchStarted ""; Backend.CategoryStarted;
        Backend.CategoryFinished (Resolves true (Some [Sample.dessert]));
        Backend.SearchFinished ""
          (Resolves true (Some [Sample.chickenBreast]))])
  = [Sample.chickenBreast].
Proof. reflexivity. Qed.

Example modal_after_close :
  Modal.shown (Modal.run [Modal.Click Sample.dessert; Modal.Close]) = None /\
  Modal.shown (Modal.run [Modal.Close; Modal.Click Sample.dessert])
    = Some Sample.dessert.
Proof. split; reflexivity. Qed.

End MoreExamples.
